(** * run-with-policy.js: the Pulumi policy-check wrapper

    A shallow embedding of [run-with-policy.js] (argument scan, default
    resolution, directory checks, construction of the [pulumi] invocation,
    exit behaviour) and the properties of it that the specification states.

    The script talks to the Node runtime and to the operating system:
    [process.argv], [process.env], [__dirname], the [path] and [fs] modules
    and [child_process.spawnSync].  These are collected in the record [Host];
    every definition below is the script's code over such a host.  Console
    output, file-system probes and the spawned command are recorded, in
    program order, in a trace of [Event]s; [process.exit] and thrown
    exceptions stop the computation.

    The source file holds two copies of the script.  Their [parseArgs],
    [directoryExists], [runCommand] and [main] are the same, token for
    token; the first copy has three more lines in its usage text (the
    "Features" paragraph) and a function [buildPolicyPack] whose only call
    is commented out.  The embedding follows the first copy; nothing below
    depends on the wording of the usage text. *)

From Stdlib Require Import String Ascii List ZArith Bool Lia.
Import ListNotations.
Open Scope string_scope.

(** ** Effects: trace, [process.exit], exceptions *)

(** What the script does to the outside world. *)
Inductive Event : Type :=
| ConsoleLog (text : string)                                (* console.log(text) *)
| ExistsSync (p : string)                                   (* fs.existsSync(p) *)
| StatSync (p : string)                                     (* fs.statSync(p) *)
| SpawnSync (cmd : string) (args : list string) (cwd : string). (* spawnSync(cmd, args, {cwd, ...}) *)

(** Why a computation stopped before returning: [process.exit(code)], where
    [None] is the JavaScript value [null], or a thrown error, represented by
    its [message]. *)
Inductive Stop : Type :=
| Exit (code : option Z)
| Raise (msg : string).

(** Result of a host call that may throw. *)
Inductive Res (A : Type) : Type :=
| Ok (a : A)
| Throw (msg : string).
Arguments Ok {A} a.
Arguments Throw {A} msg.

Definition M (A : Type) : Type := (list Event * (A + Stop))%type.

Definition ret {A} (a : A) : M A := ([], inl a).

Definition bind {A B} (m : M A) (f : A -> M B) : M B :=
  match m with
  | (t, inl a) => let (t', r) := f a in ((t ++ t')%list, r)
  | (t, inr s) => (t, inr s)
  end.

Definition emit (e : Event) : M unit := ([e], inl tt).

Definition throw {A} (msg : string) : M A := ([], inr (Raise msg)).

(** [process.exit(code)]: nothing after it runs, and no handler sees it. *)
Definition process_exit {A} (code : option Z) : M A := ([], inr (Exit code)).

(** [try { m } catch (err) { handler err }], also [promise.catch(handler)]
    for the promise of an [async] function whose body is [m]. *)
Definition catch {A} (m : M A) (handler : string -> M A) : M A :=
  match m with
  | (t, inr (Raise msg)) => let (t', r) := handler msg in ((t ++ t')%list, r)
  | _ => m
  end.

Definition lift {A} (r : Res A) : M A :=
  match r with
  | Ok a => ret a
  | Throw msg => throw msg
  end.

Declare Scope js_scope.
Delimit Scope js_scope with js.
Notation "x <- m ;; k" := (bind m (fun x => k))
  (at level 61, m at next level, right associativity) : js_scope.
Notation "m ;; k" := (bind m (fun _ => k))
  (at level 61, right associativity) : js_scope.
Open Scope js_scope.

Definition trace {A} (m : M A) : list Event := fst m.
Definition result {A} (m : M A) : A + Stop := snd m.

(** ** The host *)

(** What [fs.statSync] finds at a path. *)
Inductive FileType : Type := Directory | OtherFile.

Definition isDirectory (k : FileType) : bool :=
  match k with Directory => true | OtherFile => false end.

Record Host : Type := {
  (* process.argv.slice(2) *)
  argv : list string;
  (* process.env: [None] is an unset variable *)
  env : string -> option string;
  (* __dirname *)
  dirname : string;
  (* path.join, path.resolve, path.basename; path.resolve reads
     process.cwd() for a relative path, which throws when the working
     directory is gone *)
  path_join : string -> string -> string;
  path_resolve : string -> Res string;
  path_basename : string -> string;
  (* the file system: the entry a path leads to, if any *)
  fs_entry : string -> option FileType;
  (* spawnSync(cmd, args, {cwd}): throws, or returns a result whose
     [status] is the child's exit code, [null] when no exit code exists
     (child killed by a signal, or the binary could not be started) *)
  child_status : string -> list string -> string -> Res (option Z)
}.

(** ANSI color codes *)
Definition esc : string := String (ascii_of_nat 27) "".
Module colors.
Definition red : string := esc ++ "[31m".
Definition green : string := esc ++ "[32m".
Definition yellow : string := esc ++ "[33m".
Definition blue : string := esc ++ "[34m".
Definition magenta : string := esc ++ "[35m".
Definition cyan : string := esc ++ "[36m".
Definition reset : string := esc ++ "[0m".
End colors.

Definition nl : string := String (ascii_of_nat 10) "".

(** Array.prototype.includes on strings *)
Definition includes (x : string) (l : list string) : bool :=
  existsb (String.eqb x) l.

(** JavaScript truthiness of a string: the empty string is falsy. *)
Definition truthy (s : string) : bool := negb (String.eqb s "").

(** [log(message, color)] *)
Definition log (message color : string) : M unit :=
  emit (ConsoleLog (color ++ message ++ colors.reset)).

Definition helpText : string := "
Pulumi Policy Check Wrapper

Usage:
  node run-with-policy.js [options] [command] [args]

Options:
  --policy-dir <dir>   Path to the policy pack directory
  --project-dir <dir>  Path to the Pulumi project directory
  --stack <stack>      Pulumi stack name
  --help               Show this help text

Features:
  - Automatically builds the policy pack using pnpm workspace
  - Supports configuration via environment variables
  - Works with any Pulumi command

Environment Variables:
  POLICY_DIR           Path to the policy pack directory
  PULUMI_PROJECT_DIR   Path to the Pulumi project directory
  PULUMI_STACK         Pulumi stack name

Priority order: Command-line arguments > Environment variables > Default values

Commands:
  preview              Run pulumi preview with policy enforcement (default)
  up                   Run pulumi up with policy enforcement
  refresh              Run pulumi refresh with policy enforcement
  destroy              Run pulumi destroy with policy enforcement

Examples:
  node run-with-policy.js --policy-dir ./my-policies --project-dir ./my-project preview
  node run-with-policy.js --project-dir ./infrastructure --stack dev up
  POLICY_DIR=./policies PULUMI_PROJECT_DIR=./project PULUMI_STACK=dev node run-with-policy.js preview
".

(** [showHelp()]: print the usage text and [process.exit(0)]. *)
Definition showHelp {A} : M A :=
  emit (ConsoleLog helpText) ;; process_exit (Some 0%Z).

(** ** parseArgs *)

(** The local variables of [parseArgs] that the [for] loop updates. *)
Record Vars : Type := {
  policyDir : string;
  projectDir : string;
  stack : string;
  command : string;
  remainingArgs : list string
}.

Definition set_policyDir (v : Vars) (x : string) : Vars :=
  {| policyDir := x; projectDir := projectDir v; stack := stack v;
     command := command v; remainingArgs := remainingArgs v |}.

Definition set_projectDir (v : Vars) (x : string) : Vars :=
  {| policyDir := policyDir v; projectDir := x; stack := stack v;
     command := command v; remainingArgs := remainingArgs v |}.

Definition set_stack (v : Vars) (x : string) : Vars :=
  {| policyDir := policyDir v; projectDir := projectDir v; stack := x;
     command := command v; remainingArgs := remainingArgs v |}.

(** [command = args[i]; remainingArgs = args.slice(i + 1); break] *)
Definition set_command (v : Vars) (c : string) (rest : list string) : Vars :=
  {| policyDir := policyDir v; projectDir := projectDir v; stack := stack v;
     command := c; remainingArgs := rest |}.

(** [remainingArgs.push(args[i])] *)
Definition push (v : Vars) (a : string) : Vars :=
  {| policyDir := policyDir v; projectDir := projectDir v; stack := stack v;
     command := command v; remainingArgs := (remainingArgs v ++ [a])%list |}.

(** [['preview', 'up', 'refresh', 'destroy'].includes(a)] *)
Definition isCommand (a : string) : bool :=
  includes a ["preview"; "up"; "refresh"; "destroy"].

(** The [for] loop of [parseArgs], on the tokens from index [i] on: the
    head of the list is [args[i]], [i + 1 < args.length] holds exactly when
    a second token follows, and [args.slice(i + 1)] is the tail. *)
Fixpoint scan (args : list string) (v : Vars) : Vars :=
  match args with
  | [] => v
  | a :: rest =>
    match rest with
    | next :: rest' =>
      if String.eqb a "--policy-dir" then scan rest' (set_policyDir v next)
      else if String.eqb a "--project-dir" then scan rest' (set_projectDir v next)
      else if String.eqb a "--stack" then scan rest' (set_stack v next)
      else if isCommand a then set_command v a rest
      else scan rest (push v a)
    | [] =>
      if isCommand a then set_command v a rest
      else push v a
    end
  end.

(** The same loop with the index of the source: [loopFrom fuel args i v]
    runs the loop from [i] with variables [v], for at most [fuel]
    iterations ([args.length] iterations are enough).  [args[i + 1]] is
    read only under the guard [i + 1 < args.length]. *)
Fixpoint loopFrom (fuel : nat) (args : list string) (i : nat) (v : Vars) : Vars :=
  match fuel with
  | O => v
  | S fuel' =>
    match nth_error args i with
    | None => v
    | Some a =>
      let guard := Nat.ltb (i + 1) (List.length args) in
      let next := nth (i + 1) args "" in
      if String.eqb a "--policy-dir" && guard
      then loopFrom fuel' args (i + 2) (set_policyDir v next)
      else if String.eqb a "--project-dir" && guard
      then loopFrom fuel' args (i + 2) (set_projectDir v next)
      else if String.eqb a "--stack" && guard
      then loopFrom fuel' args (i + 2) (set_stack v next)
      else if isCommand a then set_command v a (skipn (i + 1) args)
      else loopFrom fuel' args (i + 1) (push v a)
    end
  end.

(** [process.env.NAME || ''] *)
Definition envOr (h : Host) (name : string) : string :=
  match env h name with
  | Some s => s
  | None => ""
  end.

(** The value [parseArgs] returns. *)
Record Config : Type := {
  cfg_policyDir : string;
  cfg_projectDir : string;
  cfg_command : string;
  cfg_remainingArgs : list string
}.

Section Script.

Variable h : Host.

Definition existsSync (p : string) : M bool :=
  emit (ExistsSync p) ;;
  ret (match fs_entry h p with Some _ => true | None => false end).

Definition statSync (p : string) : M FileType :=
  emit (StatSync p) ;;
  match fs_entry h p with
  | Some k => ret k
  | None => throw ("ENOENT: no such file or directory, stat '" ++ p ++ "'")
  end.

Definition resolve (p : string) : M string := lift (path_resolve h p).

Definition wantsHelp (args : list string) : bool :=
  includes "--help" args || includes "-h" args.

Definition initVars : Vars :=
  {| policyDir := envOr h "POLICY_DIR";
     projectDir := envOr h "PULUMI_PROJECT_DIR";
     stack := envOr h "PULUMI_STACK";
     command := "preview";
     remainingArgs := [] |}.

(** [if (!policyDir) { ... }] *)
Definition defaultPolicyDir (policyDir : string) : M string :=
  if truthy policyDir then ret policyDir
  else
    let localPolicyDir := "./pulumiPolicy" in
    found <- existsSync localPolicyDir ;;
    if found then ret localPolicyDir
    else ret (path_join h (dirname h) "pulumiPolicy").

(** [if (!projectDir) { ... }] *)
Definition defaultProjectDir (projectDir : string) : string :=
  if truthy projectDir then projectDir
  else path_join h (dirname h) "pulumiTemplate".

Definition parseArgs : M Config :=
  let args := argv h in
  (if wantsHelp args then showHelp else ret tt) ;;
  let v := scan args initVars in
  policyDir <- defaultPolicyDir (policyDir v) ;;
  let projectDir := defaultProjectDir (projectDir v) in
  policyDir' <- resolve policyDir ;;
  projectDir' <- resolve projectDir ;;
  ret {| cfg_policyDir := policyDir';
         cfg_projectDir := projectDir';
         cfg_command := command v;
         cfg_remainingArgs := remainingArgs v |}.

(** [directoryExists(dir)] *)
Definition directoryExists (dir : string) : M bool :=
  catch (k <- statSync dir ;; ret (isDirectory k))
        (fun _ => ret false).

(** [runCommand(command, args, cwd)]; the value returned is
    [result.status]. *)
Definition runCommand (command : string) (args : list string) (cwd : string)
  : M (option Z) :=
  log ("Running command: " ++ command ++ " " ++ String.concat " " args)
      colors.blue ;;
  emit (SpawnSync command args cwd) ;;
  lift (child_status h command args cwd).

(** The module-level constant [PULUMI_STACK]. *)
Definition PULUMI_STACK : string := envOr h "PULUMI_STACK".

(** The value of [pulumiArgs] when [runCommand] is called: a copy of
    [initialArgs], [unshift('--stack', PULUMI_STACK)] under the guard, then
    [push('--policy-pack', POLICY_PACK_DIR)]. *)
Definition pulumiArgs (stack : string) (initialArgs : list string)
  (policyPackDir : string) : list string :=
  ((if truthy stack && negb (includes "--stack" initialArgs)
    then "--stack" :: stack :: initialArgs
    else initialArgs) ++ ["--policy-pack"; policyPackDir])%list.

Definition sourceOf (name : string) : string :=
  if truthy (envOr h name) then "Environment variable"
  else "Default or command-line".

(** [main] runs for the configuration that [parseArgs] returned.  Its body
    is three blocks in sequence: the banner, the directory checks, and the
    invocation of the CLI. *)

(** The [log] calls that open [main]. *)
Definition banner (cfg : Config) : M unit :=
  let POLICY_PACK_DIR := cfg_policyDir cfg in
  let PULUMI_PROJECT_DIR := cfg_projectDir cfg in
  let POLICY_PACK_NAME := path_basename h POLICY_PACK_DIR in
  log "=== Pulumi Policy Check Wrapper ===" colors.blue ;;
  log ("Policy Pack: " ++ POLICY_PACK_NAME) colors.blue ;;
  log ("Policy Directory: " ++ POLICY_PACK_DIR) colors.blue ;;
  log ("Project Directory: " ++ PULUMI_PROJECT_DIR) colors.blue ;;
  (if truthy PULUMI_STACK then log ("Stack: " ++ PULUMI_STACK) colors.blue
   else ret tt) ;;
  log (nl ++ "Configuration sources:") colors.cyan ;;
  log ("Policy Directory: " ++ sourceOf "POLICY_DIR") colors.cyan ;;
  log ("Project Directory: " ++ sourceOf "PULUMI_PROJECT_DIR") colors.cyan ;;
  log ("Stack: " ++ sourceOf "PULUMI_STACK") colors.cyan ;;
  log (nl ++ "Absolute paths:") colors.cyan ;;
  absPolicy <- resolve POLICY_PACK_DIR ;;
  log ("Policy Directory: " ++ absPolicy) colors.cyan ;;
  absProject <- resolve PULUMI_PROJECT_DIR ;;
  log ("Project Directory: " ++ absProject) colors.cyan.

(** "Check if required directories exist" *)
Definition checkDirectories (cfg : Config) : M unit :=
  let POLICY_PACK_DIR := cfg_policyDir cfg in
  let PULUMI_PROJECT_DIR := cfg_projectDir cfg in
  policyOk <- directoryExists POLICY_PACK_DIR ;;
  (if negb policyOk then
     log ("Error: Policy pack directory not found: " ++ POLICY_PACK_DIR)
         colors.red ;;
     process_exit (Some 1%Z)
   else ret tt) ;;
  projectOk <- directoryExists PULUMI_PROJECT_DIR ;;
  (if negb projectOk then
     log ("Error: Pulumi project directory not found: " ++ PULUMI_PROJECT_DIR)
         colors.red ;;
     process_exit (Some 1%Z)
   else ret tt).

Definition successMessage (pulumiCommand : string) : string :=
  "✅ " ++ pulumiCommand ++ " completed successfully with no policy violations".

Definition failureMessage (pulumiCommand : string) : string :=
  "❌ " ++ pulumiCommand ++ " failed or policy violations detected".

(** From "Use the command and arguments from parseArgs()" to the end. *)
Definition runPulumi (cfg : Config) : M unit :=
  let POLICY_PACK_DIR := cfg_policyDir cfg in
  let PULUMI_PROJECT_DIR := cfg_projectDir cfg in
  let pulumiCommand := cfg_command cfg in
  let args := pulumiArgs PULUMI_STACK (cfg_remainingArgs cfg) POLICY_PACK_DIR in
  (if truthy PULUMI_STACK && negb (includes "--stack" (cfg_remainingArgs cfg))
   then log ("Adding stack parameter: " ++ PULUMI_STACK) colors.cyan
   else ret tt) ;;
  log ("Running Pulumi " ++ pulumiCommand ++ " with policy checks...")
      colors.yellow ;;
  pulumiResult <- runCommand "pulumi" (pulumiCommand :: args) PULUMI_PROJECT_DIR ;;
  match pulumiResult with
  | Some 0%Z => log (successMessage pulumiCommand) colors.green
  | _ =>
    log (failureMessage pulumiCommand) colors.red ;;
    process_exit pulumiResult
  end.

Definition main (cfg : Config) : M unit :=
  banner cfg ;;
  checkDirectories cfg ;;
  runPulumi cfg.

Definition unhandledMessage (message : string) : string :=
  "Unhandled error: " ++ message.

(** [main().catch((error) => { ... })] *)
Definition onUnhandled (message : string) : M unit :=
  log (unhandledMessage message) colors.red ;;
  process_exit (Some 1%Z).

(** The whole script, top to bottom: [parseArgs()] runs at module level,
    then [main()] runs with its rejection handler attached. *)
Definition script : M unit :=
  cfg <- parseArgs ;;
  catch (main cfg) onUnhandled.

End Script.

(** ** How a run ends *)

Inductive Outcome : Type :=
| Completed                   (* the script ran to its end *)
| Exited (code : option Z)    (* process.exit(code) was called *)
| Uncaught (msg : string).    (* an exception left the script *)

Definition outcome (h : Host) : Outcome :=
  match result (script h) with
  | inl _ => Completed
  | inr (Exit code) => Exited code
  | inr (Raise msg) => Uncaught msg
  end.

(** The exit status of the node process: 0 when the script runs to its end
    or calls [process.exit] with [null], the given code otherwise, and 1,
    node's status for an uncaught exception. *)
Definition exitStatus (o : Outcome) : Z :=
  match o with
  | Completed => 0
  | Exited None => 0
  | Exited (Some n) => n
  | Uncaught _ => 1
  end.

Definition isSpawn (e : Event) : bool :=
  match e with SpawnSync _ _ _ => true | _ => false end.

Definition isProbe (e : Event) : bool :=
  match e with ExistsSync _ | StatSync _ => true | _ => false end.

(** The [spawnSync] call of [main]: [pulumi], with the command followed by
    [pulumiArgs], in the project directory. *)
Definition invocation (h : Host) (cfg : Config) : Event :=
  SpawnSync "pulumi"
    (cfg_command cfg
     :: pulumiArgs (PULUMI_STACK h) (cfg_remainingArgs cfg) (cfg_policyDir cfg))
    (cfg_projectDir cfg).

(** The status that [spawnSync] reports for that call. *)
Definition pulumiStatus (h : Host) (cfg : Config) : Res (option Z) :=
  child_status h "pulumi"
    (cfg_command cfg
     :: pulumiArgs (PULUMI_STACK h) (cfg_remainingArgs cfg) (cfg_policyDir cfg))
    (cfg_projectDir cfg).

(** The line that [log(message, color)] prints. *)
Definition logged (message color : string) : Event :=
  ConsoleLog (color ++ message ++ colors.reset).

(** No subprocess is spawned in a trace. *)
Definition noSpawn (t : list Event) : Prop := filter isSpawn t = [].

(** A computation that returns or throws, but does not call
    [process.exit]. *)
Definition noExit {A} (m : M A) : Prop :=
  forall code, result m <> inr (Exit code).

(** What [directoryExists] answers. *)
Definition isDir (h : Host) (p : string) : bool :=
  match fs_entry h p with
  | Some k => isDirectory k
  | None => false
  end.

(** ** Where a prefix of the arguments leaves the loop *)

Definition isValueFlag (a : string) : bool :=
  String.eqb a "--policy-dir" || String.eqb a "--project-dir"
  || String.eqb a "--stack".

(** The loop, having read a proper prefix [pre] of the arguments, is in one
    of three positions: about to examine the token after [pre]
    ([AtBoundary]); about to take the token after [pre] as the value of the
    flag that ends [pre] ([PendingValue]); or out of the loop, through the
    [break] at a command literal inside [pre] ([Stopped]). *)
Inductive ScanEnd : Type := AtBoundary | PendingValue | Stopped.

Fixpoint scanEnd (pre : list string) : ScanEnd :=
  match pre with
  | [] => AtBoundary
  | a :: rest =>
    if isValueFlag a then
      match rest with
      | [] => PendingValue
      | _ :: rest' => scanEnd rest'
      end
    else if isCommand a then Stopped
    else scanEnd rest
  end.

(** The variable that a value flag assigns. *)
Definition fieldOf (flag : string) (v : Vars) : string :=
  if String.eqb flag "--policy-dir" then policyDir v
  else if String.eqb flag "--project-dir" then projectDir v
  else stack v.

(** [path.resolve] raises on no path of this host. *)
Definition resolvable (h : Host) : Prop :=
  forall p, exists a, path_resolve h p = Ok a.

(** ** Concrete hosts

    A POSIX-like host used to run the script on concrete inputs: paths are
    joined with a slash, a relative path is resolved against the working
    directory, and [path.resolve] of a relative path throws when there is
    no working directory. *)
Module Demo.

Fixpoint assoc {A} (k : string) (l : list (string * A)) : option A :=
  match l with
  | [] => None
  | (k', x) :: l' => if String.eqb k k' then Some x else assoc k l'
  end.

Definition join (a b : string) : string := a ++ "/" ++ b.

Definition resolveFrom (cwd : option string) (p : string) : Res string :=
  if String.prefix "/" p then Ok p
  else
    match cwd with
    | None => Throw "ENOENT: no such file or directory, uv_cwd"
    | Some d =>
      if String.prefix "./" p
      then Ok (d ++ "/" ++ String.substring 2 (String.length p - 2) p)
      else Ok (d ++ "/" ++ p)
    end.

Fixpoint lastSegment (s acc : string) : string :=
  match s with
  | EmptyString => acc
  | String c r =>
    if Ascii.eqb c "/"%char then lastSegment r ""
    else lastSegment r (acc ++ String c "")
  end.

Definition host (args : list string) (vars : list (string * string))
  (files : list (string * FileType)) (cwd : option string)
  (child : Res (option Z)) : Host :=
  {| argv := args;
     env := fun name => assoc name vars;
     dirname := "/opt/runner";
     path_join := join;
     path_resolve := resolveFrom cwd;
     path_basename := fun p => lastSegment p "";
     fs_entry := fun p => assoc p files;
     child_status := fun _ _ _ => child |}.

Definition bothDirs : list (string * FileType) :=
  [("/opt/runner/pulumiPolicy", Directory);
   ("/opt/runner/pulumiTemplate", Directory)].

(* node run-with-policy.js up --help *)
Definition helpAfterCommand : Host :=
  host ["up"; "--help"] [] bothDirs (Some "/work") (Ok (Some 0%Z)).

(* PULUMI_STACK=dev node run-with-policy.js --stack prod up *)
Definition stackFlagAndEnv : Host :=
  host ["--stack"; "prod"; "up"] [("PULUMI_STACK", "dev")] bothDirs
       (Some "/work") (Ok (Some 0%Z)).

(* node run-with-policy.js --stack prod up *)
Definition stackFlagOnly : Host :=
  host ["--stack"; "prod"; "up"] [] bothDirs (Some "/work") (Ok (Some 0%Z)).

(* node run-with-policy.js --diff up --yes *)
Definition tokenBeforeCommand : Host :=
  host ["--diff"; "up"; "--yes"] [] bothDirs (Some "/work") (Ok (Some 0%Z)).

(* POLICY_DIR=policies node run-with-policy.js preview, started in a
   working directory that has been removed *)
Definition cwdGone : Host :=
  host ["preview"] [("POLICY_DIR", "policies")] bothDirs None (Ok (Some 0%Z)).

(* node run-with-policy.js preview, where spawnSync throws *)
Definition spawnThrows : Host :=
  host ["preview"] [] bothDirs (Some "/work") (Throw "spawnSync pulumi EINVAL").

(* node run-with-policy.js preview, with no pulumi binary on the PATH:
   spawnSync returns a result whose status is null *)
Definition binaryMissing : Host :=
  host ["preview"] [] bothDirs (Some "/work") (Ok None).

(* POLICY_DIR=/env/policies node run-with-policy.js --stack --policy-dir policies up *)
Definition policyFlagAsValue : Host :=
  host ["--stack"; "--policy-dir"; "policies"; "up"]
       [("POLICY_DIR", "/env/policies")] bothDirs (Some "/work") (Ok (Some 0%Z)).

(* POLICY_DIR=/env/policies node run-with-policy.js --policy-dir policies up *)
Definition policyFlagAndEnv : Host :=
  host ["--policy-dir"; "policies"; "up"]
       [("POLICY_DIR", "/env/policies")] bothDirs (Some "/work") (Ok (Some 0%Z)).

(* node run-with-policy.js preview, with a regular file ./pulumiPolicy in
   the working directory *)
Definition localPolicyIsFile : Host :=
  host ["preview"] [] (("./pulumiPolicy", OtherFile) :: bothDirs)
       (Some "/work") (Ok (Some 0%Z)).

(* node run-with-policy.js preview, with a directory ./pulumiPolicy in the
   working directory *)
Definition localPolicyIsDir : Host :=
  host ["preview"] []
       (("./pulumiPolicy", Directory) :: ("/work/pulumiPolicy", Directory)
        :: bothDirs)
       (Some "/work") (Ok (Some 0%Z)).

(* node run-with-policy.js up, where pulumi exits with status 7 *)
Definition childExits7 : Host :=
  host ["up"] [] bothDirs (Some "/work") (Ok (Some 7%Z)).

(* node run-with-policy.js --project-dir /srv/infra up, /srv/infra absent *)
Definition projectMissing : Host :=
  host ["--project-dir"; "/srv/infra"; "up"] [] bothDirs (Some "/work")
       (Ok (Some 0%Z)).

(* node run-with-policy.js --stack --policy-dir *)
Definition trailingFlagAsValue : Host :=
  host ["--stack"; "--policy-dir"] [] bothDirs (Some "/work") (Ok (Some 0%Z)).

(* node run-with-policy.js --diff --stack *)
Definition trailingStack : Host :=
  host ["--diff"; "--stack"] [] bothDirs (Some "/work") (Ok (Some 0%Z)).

(* configurations as parseArgs returns them *)
Definition cfgYes : Config :=
  {| cfg_policyDir := "/opt/runner/pulumiPolicy";
     cfg_projectDir := "/opt/runner/pulumiTemplate";
     cfg_command := "up";
     cfg_remainingArgs := ["--yes"] |}.

Definition cfgOwnStack : Config :=
  {| cfg_policyDir := "/opt/runner/pulumiPolicy";
     cfg_projectDir := "/opt/runner/pulumiTemplate";
     cfg_command := "up";
     cfg_remainingArgs := ["--stack"; "prod-explicit"] |}.

End Demo.

(** ** buildPolicyPack

    The first copy of the script defines [buildPolicyPack]; its call in
    [main] is commented out.  [process.cwd()] is evaluated as an argument of
    each [runCommand] call; its outcome is the parameter [process_cwd]. *)

Definition isZero (status : option Z) : bool :=
  match status with
  | Some 0%Z => true
  | _ => false
  end.

Definition buildPolicyPack (h : Host) (process_cwd : Res string)
  (policyPackDir : string) : M (option Z) :=
  log "Building policy pack..." colors.yellow ;;
  let packageJsonPath := path_join h policyPackDir "package.json" in
  found <- existsSync h packageJsonPath ;;
  if negb found then
    log ("Warning: No package.json found in " ++ policyPackDir) colors.yellow ;;
    ret (Some 0%Z)
  else
    log "Installing dependencies with pnpm..." colors.yellow ;;
    cwd <- lift process_cwd ;;
    installResult <- runCommand h "pnpm" ["install"] cwd ;;
    if negb (isZero installResult) then
      log "Error: Failed to install dependencies" colors.red ;;
      ret installResult
    else
      log "Building policy pack..." colors.yellow ;;
      cwd' <- lift process_cwd ;;
      buildResult <- runCommand h "pnpm"
                       ["--filter"; path_basename h policyPackDir; "run"; "build"]
                       cwd' ;;
      if negb (isZero buildResult) then
        log "Error: Failed to build policy pack" colors.red ;;
        ret buildResult
      else
        log "✅ Policy pack built successfully" colors.green ;;
        ret (Some 0%Z).

(** The two [spawnSync] calls of [buildPolicyPack]. *)
Definition pnpmInstall (cwd : string) : Event :=
  SpawnSync "pnpm" ["install"] cwd.

Definition pnpmBuild (h : Host) (policyPackDir cwd : string) : Event :=
  SpawnSync "pnpm" ["--filter"; path_basename h policyPackDir; "run"; "build"] cwd.

(** ** The organization's policies (the policy pack's index file)

    Each [validateResource] callback receives the resolved properties of a
    resource and calls [reportViolation] zero or more times; the model
    returns the reported messages, in call order.  A property that may be
    [undefined] is an [option]. *)
Module PolicyPack.

(** JavaScript truthiness of an optional boolean and an optional string *)
Definition truthyBool (b : option bool) : bool :=
  match b with Some true => true | _ => false end.

Definition truthyString (s : option string) : bool :=
  match s with Some x => truthy x | None => false end.

Record BucketVersioning : Type := { enabled : option bool }.

Record Bucket : Type := { versioning : option BucketVersioning }.

Definition versioningMessage : string :=
  "S3 buckets must have versioning enabled according to organizational policy.".

(** [if (!bucket.versioning || !bucket.versioning.enabled)] *)
Definition requireS3BucketVersioning (bucket : Bucket) : list string :=
  match versioning bucket with
  | None => [versioningMessage]
  | Some v =>
    if negb (truthyBool (enabled v)) then [versioningMessage] else []
  end.

Record Ec2Instance : Type := {
  instanceType : option string;
  tags : option (string -> option string)
}.

Definition requiredTags : list string := ["Owner"; "Environment"; "CostCenter"].

Definition instanceTypeMessage : string :=
  "EC2 instances must not be of type 't2.micro' according to organizational policy.".

Definition tagMessage (tag : string) : string :=
  "EC2 instance must have the '" ++ tag ++ "' tag according to organizational policy.".

(** [instance.instanceType !== "t2.micro"] *)
Definition notT2Micro (t : option string) : bool :=
  match t with
  | Some x => negb (String.eqb x "t2.micro")
  | None => true
  end.

(** [(instance.tags || {})[tag]] *)
Definition tagOf (instance : Ec2Instance) (tag : string) : option string :=
  match tags instance with
  | Some t => t tag
  | None => None
  end.

Definition requireEC2InstanceTags (instance : Ec2Instance) : list string :=
  let tags := match tags instance with
              | Some t => t
              | None => fun _ => None          (* instance.tags || {} *)
              end in
  ((if notT2Micro (instanceType instance) then [instanceTypeMessage] else [])
   ++ flat_map (fun tag =>
                  if negb (truthyString (tags tag)) then [tagMessage tag]
                  else [])
               requiredTags)%list.

Record RdsInstance : Type := {
  storageEncrypted : option bool;
  engineVersion : option string
}.

Definition encryptionMessage : string :=
  "RDS instances must have storage encryption enabled according to organizational policy.".

Definition engineVersionMessage : string :=
  "RDS instances must not be of engine version '8.0' according to organizational policy.".

(** [instance.engineVersion === "8.0"] *)
Definition isVersion80 (v : option string) : bool :=
  match v with
  | Some x => String.eqb x "8.0"
  | None => false
  end.

Definition requireRDSEncryption (instance : RdsInstance) : list string :=
  ((if negb (truthyBool (storageEncrypted instance)) then [encryptionMessage]
    else [])
   ++ (if isVersion80 (engineVersion instance) then [engineVersionMessage]
       else []))%list.

End PolicyPack.

(** ** More concrete hosts and resources *)
Module Sample.

(* node run-with-policy.js --verbose --diff *)
Definition plainTokens : Host :=
  Demo.host ["--verbose"; "--diff"] [] Demo.bothDirs (Some "/work")
            (Ok (Some 0%Z)).

(* node run-with-policy.js --stack dev up --policy-dir elsewhere --yes *)
Definition optionsAfterCommand : Host :=
  Demo.host ["--stack"; "dev"; "up"; "--policy-dir"; "elsewhere"; "--yes"] []
            Demo.bothDirs (Some "/work") (Ok (Some 0%Z)).

(* PULUMI_PROJECT_DIR=/env/infra node run-with-policy.js --project-dir infra up *)
Definition projectFlagAndEnv : Host :=
  Demo.host ["--project-dir"; "infra"; "up"]
            [("PULUMI_PROJECT_DIR", "/env/infra")] Demo.bothDirs (Some "/work")
            (Ok (Some 0%Z)).

(* POLICY_DIR=policies PULUMI_PROJECT_DIR=/env/infra node run-with-policy.js up *)
Definition bothFromEnv : Host :=
  Demo.host ["up"]
            [("POLICY_DIR", "policies"); ("PULUMI_PROJECT_DIR", "/env/infra")]
            [("/work/policies", Directory); ("/env/infra", Directory)]
            (Some "/work") (Ok (Some 0%Z)).

(* node run-with-policy.js up, with neither default directory on disk *)
Definition nothingOnDisk : Host :=
  Demo.host ["up"] [] [] (Some "/work") (Ok (Some 0%Z)).

Definition defaultConfig (cmd : string) : Config :=
  {| cfg_policyDir := "/opt/runner/pulumiPolicy";
     cfg_projectDir := "/opt/runner/pulumiTemplate";
     cfg_command := cmd;
     cfg_remainingArgs := [] |}.

(* pnpm install exits with 1, pnpm run build with 0 *)
Definition installFails : Host :=
  {| argv := [];
     env := fun _ => None;
     dirname := "/opt/runner";
     path_join := Demo.join;
     path_resolve := Demo.resolveFrom (Some "/work");
     path_basename := fun p => Demo.lastSegment p "";
     fs_entry := fun p => Demo.assoc p [("/work/pulumiPolicy/package.json", OtherFile)];
     child_status := fun _ args _ =>
       if includes "install" args then Ok (Some 1%Z) else Ok (Some 0%Z) |}.

(* both pnpm commands exit with 0 *)
Definition buildSucceeds : Host :=
  Demo.host [] [] [("/work/pulumiPolicy/package.json", OtherFile)]
            (Some "/work") (Ok (Some 0%Z)).

Definition versionedBucket : PolicyPack.Bucket :=
  {| PolicyPack.versioning := Some {| PolicyPack.enabled := Some true |} |}.

Definition taggedInstance : PolicyPack.Ec2Instance :=
  {| PolicyPack.instanceType := Some "t2.micro";
     PolicyPack.tags := Some (fun k =>
       Demo.assoc k [("Owner", "infra"); ("Environment", "dev");
                     ("CostCenter", "42")]) |}.

Definition untaggedInstance : PolicyPack.Ec2Instance :=
  {| PolicyPack.instanceType := Some "t2.micro";
     PolicyPack.tags := Some (fun k =>
       Demo.assoc k [("Owner", "infra"); ("Environment", "")]) |}.

Definition encryptedDatabase : PolicyPack.RdsInstance :=
  {| PolicyPack.storageEncrypted := Some true;
     PolicyPack.engineVersion := Some "8.0.35" |}.

(* node run-with-policy.js --stack prod preview --diff, PULUMI_STACK unset *)
Definition flagStackNoEnv : Host :=
  Demo.host ["--stack"; "prod"; "preview"; "--diff"] [] Demo.bothDirs
            (Some "/work") (Ok (Some 0%Z)).

(* PULUMI_STACK=dev node run-with-policy.js --stack prod preview --diff *)
Definition flagStackOverEnv : Host :=
  Demo.host ["--stack"; "prod"; "preview"; "--diff"] [("PULUMI_STACK", "dev")]
            Demo.bothDirs (Some "/work") (Ok (Some 0%Z)).

End Sample.

(** * Properties *)

(** ** The monad *)

Lemma bind_ret_l {A B} (a : A) (f : A -> M B) : bind (ret a) f = f a.
Proof. unfold bind, ret. destruct (f a); reflexivity. Qed.

Lemma bind_stop {A B} (t : list Event) (s : Stop) (f : A -> M B) :
  bind (t, inr s) f = (t, inr s).
Proof. reflexivity. Qed.

Lemma bind_step {A B} (t : list Event) (a : A) (f : A -> M B) :
  bind (t, inl a) f = ((t ++ trace (f a))%list, result (f a)).
Proof. unfold bind, trace, result. destruct (f a); reflexivity. Qed.

Lemma includes_In (x : string) (l : list string) :
  includes x l = true <-> In x l.
Proof.
  unfold includes. rewrite existsb_exists. split.
  - intros [y [Hin Heq]]. apply String.eqb_eq in Heq. now subst.
  - intros Hin. exists x. split; [assumption | apply String.eqb_refl].
Qed.

Lemma includes_not_In (x : string) (l : list string) :
  includes x l = false <-> ~ In x l.
Proof.
  rewrite <- includes_In. destruct (includes x l); split; congruence.
Qed.

(** ** C8: the help flag *)

(** C8. When [argv] contains [--help] or [-h], at any position, the whole
    run consists of printing the usage text and calling [process.exit(0)]:
    the trace holds that one [console.log], so no file-system probe is made
    and nothing is spawned, whatever the other tokens and the environment
    are. *)
Theorem C8_help_short_circuits (h : Host) :
  In "--help" (argv h) \/ In "-h" (argv h) ->
  script h = ([ConsoleLog helpText], inr (Exit (Some 0%Z)))
  /\ exitStatus (outcome h) = 0%Z
  /\ forallb (fun e => negb (isProbe e || isSpawn e)) (trace (script h)) = true.
Proof.
  intros Hhelp.
  assert (Hw : wantsHelp (argv h) = true).
  { unfold wantsHelp. apply orb_true_iff.
    destruct Hhelp as [H1 | H1]; [left | right]; now apply includes_In. }
  assert (Hs : script h = ([ConsoleLog helpText], inr (Exit (Some 0%Z)))).
  { unfold script, parseArgs. rewrite Hw. reflexivity. }
  split; [exact Hs |].
  unfold outcome. rewrite Hs. split; reflexivity.
Qed.

Lemma C8_help_short_circuits_witness :
  script Demo.helpAfterCommand = ([ConsoleLog helpText], inr (Exit (Some 0%Z)))
  /\ exitStatus (outcome Demo.helpAfterCommand) = 0%Z
  /\ forallb (fun e => negb (isProbe e || isSpawn e))
       (trace (script Demo.helpAfterCommand)) = true.
Proof.
  apply (C8_help_short_circuits Demo.helpAfterCommand).
  left. simpl. right. left. reflexivity.
Defined.

(** ** The loop *)

(** Induction that follows the loop: it advances by one token or by two. *)
Lemma tokens_ind (P : list string -> Prop) :
  P [] ->
  (forall a, P [a]) ->
  (forall a b l, P l -> P (b :: l) -> P (a :: b :: l)) ->
  forall l, P l.
Proof.
  intros Hnil Hone Hstep.
  assert (Hboth : forall l, P l /\ forall a, P (a :: l)).
  { induction l as [| b l [IHl IHbl]].
    - split; [exact Hnil | exact Hone].
    - split; [apply IHbl |]. intros a. apply Hstep; [exact IHl | apply IHbl]. }
  intros l. apply Hboth.
Qed.

Lemma scan_two (a next : string) (rest : list string) (v : Vars) :
  scan (a :: next :: rest) v =
  if String.eqb a "--policy-dir" then scan rest (set_policyDir v next)
  else if String.eqb a "--project-dir" then scan rest (set_projectDir v next)
  else if String.eqb a "--stack" then scan rest (set_stack v next)
  else if isCommand a then set_command v a (next :: rest)
  else scan (next :: rest) (push v a).
Proof. reflexivity. Qed.

Lemma scan_last (a : string) (v : Vars) :
  scan [a] v = if isCommand a then set_command v a [] else push v a.
Proof. reflexivity. Qed.

Lemma scanEnd_two (a next : string) (rest : list string) :
  scanEnd (a :: next :: rest) =
  if isValueFlag a then scanEnd rest
  else if isCommand a then Stopped
  else scanEnd (next :: rest).
Proof. reflexivity. Qed.

Lemma not_flag_eqbs (a : string) :
  isValueFlag a = false ->
  String.eqb a "--policy-dir" = false
  /\ String.eqb a "--project-dir" = false
  /\ String.eqb a "--stack" = false.
Proof.
  unfold isValueFlag. intros H.
  apply orb_false_iff in H. destruct H as [H H3].
  apply orb_false_iff in H. destruct H as [H1 H2]. auto.
Qed.

(** A token that is neither a value flag nor a command is pushed, whether or
    not another token follows. *)
Lemma scan_other (a : string) (rest : list string) (v : Vars) :
  isValueFlag a = false -> isCommand a = false ->
  scan (a :: rest) v = scan rest (push v a).
Proof.
  intros Hf Hc. destruct (not_flag_eqbs a Hf) as (H1 & H2 & H3).
  destruct rest as [| next rest].
  - rewrite scan_last, Hc. reflexivity.
  - rewrite scan_two, H1, H2, H3, Hc. reflexivity.
Qed.

(** A value flag followed by a token takes it, whatever the token is. *)
Lemma scan_flag (a next : string) (rest : list string) (v : Vars) :
  isValueFlag a = true ->
  scan (a :: next :: rest) v =
  scan rest (if String.eqb a "--policy-dir" then set_policyDir v next
             else if String.eqb a "--project-dir" then set_projectDir v next
             else set_stack v next).
Proof.
  intros Hf. rewrite scan_two.
  destruct (String.eqb a "--policy-dir") eqn:H1; [reflexivity |].
  destruct (String.eqb a "--project-dir") eqn:H2; [reflexivity |].
  destruct (String.eqb a "--stack") eqn:H3; [reflexivity |].
  unfold isValueFlag in Hf. rewrite H1, H2, H3 in Hf. discriminate.
Qed.

(** The loop on [pre ++ suf], when it reaches the end of [pre] at a token
    boundary, continues on [suf] from the variables that [pre] alone
    produces. *)
Lemma scan_app_boundary (pre : list string) :
  forall (suf : list string) (v : Vars),
  scanEnd pre = AtBoundary ->
  scan (pre ++ suf) v = scan suf (scan pre v).
Proof.
  induction pre as [| a | a b l IHl IHbl] using tokens_ind; intros suf v Hend.
  - reflexivity.
  - simpl in Hend.
    destruct (isValueFlag a) eqn:Hf; [discriminate |].
    destruct (isCommand a) eqn:Hc; [discriminate |].
    simpl app. rewrite (scan_other a suf v Hf Hc), (scan_other a [] v Hf Hc).
    reflexivity.
  - rewrite scanEnd_two in Hend.
    destruct (isValueFlag a) eqn:Hf.
    + change ((a :: b :: l) ++ suf)%list with (a :: b :: (l ++ suf))%list.
      rewrite !scan_flag by assumption. apply IHl. assumption.
    + destruct (isCommand a) eqn:Hc; [discriminate |].
      change ((a :: b :: l) ++ suf)%list with (a :: ((b :: l) ++ suf))%list.
      rewrite (scan_other a _ v Hf Hc), (scan_other a (b :: l) v Hf Hc).
      apply IHbl. assumption.
Qed.

(** The loop on [pre ++ suf], when it leaves through the [break] inside
    [pre], has the variables that [pre] alone produces, with [suf] at the
    end of the slice. *)
Lemma scan_app_stopped (pre : list string) :
  forall (suf : list string) (v : Vars),
  scanEnd pre = Stopped ->
  scan (pre ++ suf) v =
  set_command (scan pre v) (command (scan pre v))
              (remainingArgs (scan pre v) ++ suf)%list.
Proof.
  induction pre as [| a | a b l IHl IHbl] using tokens_ind; intros suf v Hend.
  - discriminate.
  - simpl in Hend.
    destruct (isValueFlag a) eqn:Hf; [discriminate |].
    destruct (isCommand a) eqn:Hc; [| discriminate].
    destruct (not_flag_eqbs a Hf) as (H1 & H2 & H3).
    rewrite scan_last, Hc. simpl app. destruct suf as [| s suf].
    + rewrite scan_last, Hc. reflexivity.
    + rewrite scan_two, H1, H2, H3, Hc. reflexivity.
  - rewrite scanEnd_two in Hend.
    destruct (isValueFlag a) eqn:Hf.
    + change ((a :: b :: l) ++ suf)%list with (a :: b :: (l ++ suf))%list.
      rewrite !scan_flag by assumption. apply IHl. assumption.
    + destruct (not_flag_eqbs a Hf) as (H1 & H2 & H3).
      destruct (isCommand a) eqn:Hc.
      * change ((a :: b :: l) ++ suf)%list with (a :: b :: (l ++ suf))%list.
        rewrite !scan_two, H1, H2, H3, Hc. reflexivity.
      * change ((a :: b :: l) ++ suf)%list with (a :: ((b :: l) ++ suf))%list.
        rewrite (scan_other a _ v Hf Hc), (scan_other a (b :: l) v Hf Hc).
        apply IHbl. assumption.
Qed.

(** Tokens other than [flag] leave the variable of [flag] alone. *)
Lemma scan_keeps_field (flag : string) (args : list string) :
  isValueFlag flag = true ->
  forall v : Vars,
  ~ In flag args -> fieldOf flag (scan args v) = fieldOf flag v.
Proof.
  intros Hflag.
  induction args as [| a | a b l IHl IHbl] using tokens_ind; intros v Hnin.
  - reflexivity.
  - rewrite scan_last. destruct (isCommand a); reflexivity.
  - assert (Ha : String.eqb flag a = false).
    { apply String.eqb_neq. intros ->. apply Hnin. left. reflexivity. }
    assert (Hl : ~ In flag l).
    { intros Hin. apply Hnin. right. right. exact Hin. }
    assert (Hbl : ~ In flag (b :: l)).
    { intros Hin. apply Hnin. right. exact Hin. }
    rewrite scan_two.
    destruct (String.eqb a "--policy-dir") eqn:H1.
    { apply String.eqb_eq in H1. subst a. rewrite (IHl _ Hl).
      unfold fieldOf. rewrite Ha. reflexivity. }
    destruct (String.eqb a "--project-dir") eqn:H2.
    { apply String.eqb_eq in H2. subst a. rewrite (IHl _ Hl).
      unfold fieldOf. rewrite Ha.
      destruct (String.eqb flag "--policy-dir"); reflexivity. }
    destruct (String.eqb a "--stack") eqn:H3.
    { apply String.eqb_eq in H3. subst a. rewrite (IHl _ Hl).
      unfold fieldOf, isValueFlag in *. rewrite Ha in Hflag.
      destruct (String.eqb flag "--policy-dir"); [reflexivity |].
      destruct (String.eqb flag "--project-dir"); [reflexivity |].
      discriminate. }
    destruct (isCommand a); [reflexivity |].
    rewrite (IHbl _ Hbl). reflexivity.
Qed.

Lemma skipn_nth_error (l : list string) (i : nat) (a : string) :
  nth_error l i = Some a -> skipn i l = a :: skipn (S i) l.
Proof.
  revert i. induction l as [| x l IHl]; intros [| i] H; try discriminate.
  - injection H as ->. reflexivity.
  - cbn in H. cbn [skipn]. rewrite (IHl i H). reflexivity.
Qed.

(** The list recursion [scan] is the indexed loop of the source. *)
Lemma loopFrom_scan (args : list string) (fuel : nat) :
  forall (i : nat) (v : Vars),
  List.length args <= i + fuel ->
  loopFrom fuel args i v = scan (skipn i args) v.
Proof.
  induction fuel as [| fuel IH]; intros i v Hlen.
  - rewrite skipn_all2 by lia. reflexivity.
  - cbn [loopFrom]. destruct (nth_error args i) as [a |] eqn:Ha.
    2: { apply nth_error_None in Ha. rewrite skipn_all2 by lia. reflexivity. }
    rewrite (skipn_nth_error _ _ _ Ha).
    replace (i + 1) with (S i) by lia. replace (i + 2) with (S (S i)) by lia.
    destruct (Nat.ltb (S i) (List.length args)) eqn:Hg.
    + apply Nat.ltb_lt in Hg.
      assert (Hb : nth_error args (S i) = Some (nth (S i) args "")).
      { apply nth_error_nth'. exact Hg. }
      rewrite (skipn_nth_error _ _ _ Hb), scan_two, !andb_true_r.
      rewrite !IH by lia.
      rewrite <- (skipn_nth_error _ _ _ Hb). reflexivity.
    + apply Nat.ltb_ge in Hg. rewrite !andb_false_r.
      replace (skipn (S i) args) with (@nil string)
        by (symmetry; apply skipn_all2; lia).
      rewrite scan_last.
      destruct (isCommand a); [reflexivity |].
      rewrite IH by lia. rewrite skipn_all2 by lia. reflexivity.
Qed.

Lemma scan_is_the_loop (args : list string) (v : Vars) :
  scan args v = loopFrom (List.length args) args 0 v.
Proof. rewrite loopFrom_scan by lia. reflexivity. Qed.

Lemma scanEnd_other (a : string) (rest : list string) :
  isValueFlag a = false -> isCommand a = false ->
  scanEnd (a :: rest) = scanEnd rest.
Proof. intros Hf Hc. cbn [scanEnd]. rewrite Hf, Hc. reflexivity. Qed.

(** The third position: the prefix ends with a value flag that the loop
    reads at a token boundary, and the next token is its value. *)
Lemma scanEnd_pending (pre : list string) :
  scanEnd pre = PendingValue ->
  exists pre' f,
    pre = (pre' ++ [f])%list /\ isValueFlag f = true
    /\ scanEnd pre' = AtBoundary.
Proof.
  induction pre as [| a | a b l IHl IHbl] using tokens_ind; intros Hend.
  - discriminate.
  - change (scanEnd [a]) with
      (if isValueFlag a then PendingValue
       else if isCommand a then Stopped else AtBoundary) in Hend.
    destruct (isValueFlag a) eqn:Hf.
    + exists [], a. auto.
    + destruct (isCommand a); discriminate.
  - rewrite scanEnd_two in Hend. destruct (isValueFlag a) eqn:Hf.
    + destruct (IHl Hend) as (pre' & f & -> & Hff & Hb).
      exists (a :: b :: pre'), f. repeat split; [assumption |].
      rewrite scanEnd_two, Hf. exact Hb.
    + destruct (isCommand a) eqn:Hc; [discriminate |].
      destruct (IHbl Hend) as (pre' & f & Heq & Hff & Hb).
      exists (a :: pre'), f. cbn [app]. rewrite <- Heq.
      repeat split; [assumption |].
      rewrite (scanEnd_other a pre' Hf Hc). exact Hb.
Qed.

Lemma scan_app_pending (pre : list string) (x : string) (suf : list string)
  (v : Vars) :
  scanEnd pre = PendingValue ->
  exists pre' f,
    pre = (pre' ++ [f])%list /\ isValueFlag f = true
    /\ scan (pre ++ x :: suf) v
       = scan suf (if String.eqb f "--policy-dir"
                   then set_policyDir (scan pre' v) x
                   else if String.eqb f "--project-dir"
                   then set_projectDir (scan pre' v) x
                   else set_stack (scan pre' v) x).
Proof.
  intros Hend. destruct (scanEnd_pending pre Hend) as (pre' & f & -> & Hf & Hb).
  exists pre', f. repeat split; [assumption |].
  rewrite <- app_assoc. cbn [app].
  rewrite (scan_app_boundary pre' _ _ Hb). apply scan_flag. exact Hf.
Qed.

(** ** parseArgs *)

Lemma wantsHelp_false (args : list string) :
  ~ In "--help" args -> ~ In "-h" args -> wantsHelp args = false.
Proof.
  intros H1 H2. unfold wantsHelp. apply orb_false_iff.
  split; now apply includes_not_In.
Qed.

(** Without a help token, on a host whose [path.resolve] does not throw,
    [parseArgs] returns, and its two directories are the resolved choices. *)
Lemma parseArgs_returns (h : Host) :
  wantsHelp (argv h) = false ->
  resolvable h ->
  let v := scan (argv h) (initVars h) in
  exists t raw cfg,
    defaultPolicyDir h (policyDir v) = (t, inl raw)
    /\ parseArgs h = (t, inl cfg)
    /\ path_resolve h raw = Ok (cfg_policyDir cfg)
    /\ path_resolve h (defaultProjectDir h (projectDir v)) = Ok (cfg_projectDir cfg)
    /\ cfg_command cfg = command v
    /\ cfg_remainingArgs cfg = remainingArgs v.
Proof.
  intros Hhelp Hres v.
  assert (Hd : exists t raw, defaultPolicyDir h (policyDir v) = (t, inl raw)).
  { unfold defaultPolicyDir. destruct (truthy (policyDir v)).
    - exists [], (policyDir v). reflexivity.
    - unfold existsSync. destruct (fs_entry h "./pulumiPolicy").
      + exists [ExistsSync "./pulumiPolicy"], "./pulumiPolicy". reflexivity.
      + exists [ExistsSync "./pulumiPolicy"],
          (path_join h (dirname h) "pulumiPolicy"). reflexivity. }
  destruct Hd as (t & raw & Hd).
  destruct (Hres raw) as [a Ha].
  destruct (Hres (defaultProjectDir h (projectDir v))) as [b Hb].
  exists t, raw,
    {| cfg_policyDir := a; cfg_projectDir := b;
       cfg_command := command v; cfg_remainingArgs := remainingArgs v |}.
  split; [exact Hd |]. split; [| auto].
  unfold parseArgs. rewrite Hhelp, bind_ret_l. fold v. rewrite Hd.
  unfold resolve. rewrite bind_step, Ha. cbn [lift]. rewrite bind_ret_l.
  rewrite Hb. cbn [lift]. rewrite bind_ret_l.
  unfold ret, trace, result. cbn [fst snd]. rewrite app_nil_r. reflexivity.
Qed.

Lemma truthy_nonempty (s : string) : s <> "" -> truthy s = true.
Proof.
  intros Hs. unfold truthy. apply negb_true_iff. now apply String.eqb_neq.
Qed.

(** ** C4: the [--policy-dir] flag *)

(** C4 (amended). Let [argv] hold no help token and let the loop reach, at a
    token boundary and before any [break], a [--policy-dir] token followed
    by a non-empty token [D], with no [--policy-dir] token after [D].  Then
    [parseArgs] returns, and its [policyDir] is [path.resolve(D)], whatever
    the environment holds for [POLICY_DIR]. *)
Theorem C4_policy_dir_flag_wins (h : Host) (pre rest : list string) (D : string) :
  argv h = (pre ++ "--policy-dir" :: D :: rest)%list ->
  scanEnd pre = AtBoundary ->
  ~ In "--help" (argv h) -> ~ In "-h" (argv h) ->
  D <> "" ->
  ~ In "--policy-dir" rest ->
  resolvable h ->
  exists cfg,
    result (parseArgs h) = inl cfg
    /\ path_resolve h D = Ok (cfg_policyDir cfg).
Proof.
  intros Hargv Hpre Hh1 Hh2 HD Hrest Hres.
  destruct (parseArgs_returns h (wantsHelp_false _ Hh1 Hh2) Hres)
    as (t & raw & cfg & Hd & Hp & Ha & _).
  exists cfg. rewrite Hp. split; [reflexivity |].
  assert (Hv : policyDir (scan (argv h) (initVars h)) = D).
  { rewrite Hargv, (scan_app_boundary pre _ _ Hpre).
    rewrite scan_flag by reflexivity. cbn [String.eqb Ascii.eqb Bool.eqb].
    change (policyDir ?x) with (fieldOf "--policy-dir" x).
    rewrite scan_keeps_field by (reflexivity || assumption). reflexivity. }
  rewrite Hv in Hd. unfold defaultPolicyDir in Hd.
  rewrite (truthy_nonempty D HD) in Hd. injection Hd as _ <-. exact Ha.
Qed.

Lemma demo_resolvable (args : list string) (vars : list (string * string))
  (files : list (string * FileType)) (d : string) (child : Res (option Z)) :
  resolvable (Demo.host args vars files (Some d) child).
Proof.
  intros p. cbn [path_resolve Demo.host]. unfold Demo.resolveFrom.
  destruct (String.prefix "/" p); [eexists; reflexivity |].
  destruct (String.prefix "./" p); eexists; reflexivity.
Qed.

Ltac absent := cbn; intuition discriminate.

Lemma C4_policy_dir_flag_wins_witness :
  exists cfg,
    result (parseArgs Demo.policyFlagAndEnv) = inl cfg
    /\ path_resolve Demo.policyFlagAndEnv "policies" = Ok (cfg_policyDir cfg).
Proof.
  apply (C4_policy_dir_flag_wins Demo.policyFlagAndEnv [] ["up"] "policies").
  - reflexivity.
  - reflexivity.
  - absent.
  - absent.
  - discriminate.
  - absent.
  - apply demo_resolvable.
Defined.

(** C4, as stated, fails.  With [POLICY_DIR=/env/policies] and the arguments
    [--stack --policy-dir policies up], the pair [--policy-dir policies]
    stands before the command literal and no command literal precedes it,
    but the loop takes the token [--policy-dir] as the value of [--stack]:
    [policyDir] is the environment value, not [path.resolve("policies")]. *)
Lemma C4_counterexample :
  argv Demo.policyFlagAsValue
    = (["--stack"] ++ "--policy-dir" :: "policies" :: ["up"])%list
  /\ forallb (fun a => negb (isCommand a)) ["--stack"] = true
  /\ wantsHelp (argv Demo.policyFlagAsValue) = false
  /\ path_resolve Demo.policyFlagAsValue "policies" = Ok "/work/policies"
  /\ exists cfg,
       result (parseArgs Demo.policyFlagAsValue) = inl cfg
       /\ cfg_policyDir cfg = "/env/policies"
       /\ cfg_policyDir cfg <> "/work/policies".
Proof.
  repeat split.
  eexists. split; [reflexivity |]. split; [reflexivity | discriminate].
Qed.

(** ** C5: the default policy directory *)

(** C5 (amended). With no help token, no [--policy-dir] token and
    [POLICY_DIR] unset or empty, [parseArgs] returns, and its [policyDir] is
    [path.resolve("./pulumiPolicy")] when [fs.existsSync("./pulumiPolicy")]
    holds, that is, when the path leads to an entry of any kind, and
    [path.resolve(path.join(__dirname, "pulumiPolicy"))] when it does
    not. *)
Theorem C5_default_policy_dir (h : Host) :
  ~ In "--help" (argv h) -> ~ In "-h" (argv h) ->
  ~ In "--policy-dir" (argv h) ->
  envOr h "POLICY_DIR" = "" ->
  resolvable h ->
  exists cfg,
    result (parseArgs h) = inl cfg
    /\ path_resolve h
         (match fs_entry h "./pulumiPolicy" with
          | Some _ => "./pulumiPolicy"
          | None => path_join h (dirname h) "pulumiPolicy"
          end) = Ok (cfg_policyDir cfg).
Proof.
  intros Hh1 Hh2 Hflag Henv Hres.
  destruct (parseArgs_returns h (wantsHelp_false _ Hh1 Hh2) Hres)
    as (t & raw & cfg & Hd & Hp & Ha & _).
  exists cfg. rewrite Hp. split; [reflexivity |].
  assert (Hv : policyDir (scan (argv h) (initVars h)) = "").
  { change (policyDir ?x) with (fieldOf "--policy-dir" x).
    rewrite scan_keeps_field by (reflexivity || assumption). exact Henv. }
  rewrite Hv in Hd. unfold defaultPolicyDir, existsSync in Hd.
  cbn [truthy String.eqb negb] in Hd.
  destruct (fs_entry h "./pulumiPolicy"); injection Hd as _ <-; exact Ha.
Qed.

Lemma C5_default_policy_dir_witness :
  exists cfg,
    result (parseArgs Demo.localPolicyIsDir) = inl cfg
    /\ path_resolve Demo.localPolicyIsDir
         (match fs_entry Demo.localPolicyIsDir "./pulumiPolicy" with
          | Some _ => "./pulumiPolicy"
          | None => path_join Demo.localPolicyIsDir
                      (dirname Demo.localPolicyIsDir) "pulumiPolicy"
          end) = Ok (cfg_policyDir cfg).
Proof.
  apply (C5_default_policy_dir Demo.localPolicyIsDir).
  - absent.
  - absent.
  - absent.
  - reflexivity.
  - apply demo_resolvable.
Defined.

(** C5, as stated, fails.  With no flag and no [POLICY_DIR], and a regular
    file (not a directory) at [./pulumiPolicy], [policyDir] is the resolved
    local path, not the resolved path next to the script. *)
Lemma C5_counterexample :
  ~ In "--policy-dir" (argv Demo.localPolicyIsFile)
  /\ env Demo.localPolicyIsFile "POLICY_DIR" = None
  /\ fs_entry Demo.localPolicyIsFile "./pulumiPolicy" = Some OtherFile
  /\ isDirectory OtherFile = false
  /\ path_resolve Demo.localPolicyIsFile
       (path_join Demo.localPolicyIsFile (dirname Demo.localPolicyIsFile)
          "pulumiPolicy") = Ok "/opt/runner/pulumiPolicy"
  /\ exists cfg,
       result (parseArgs Demo.localPolicyIsFile) = inl cfg
       /\ cfg_policyDir cfg = "/work/pulumiPolicy"
       /\ cfg_policyDir cfg <> "/opt/runner/pulumiPolicy".
Proof.
  split; [absent |]. repeat split.
  eexists. split; [reflexivity |]. split; [reflexivity | discriminate].
Qed.

(** ** C1: the [--stack] flag *)

(** C1 (evaluation of the code where the claim fails). [parseArgs] assigns
    the value of a [--stack] flag to its local variable [stack], which it
    does not return; [main] reads [PULUMI_STACK] from the environment only.
    With [PULUMI_STACK=dev] and arguments [--stack prod up], the CLI is run
    with [--stack dev]; with the same arguments and no [PULUMI_STACK], it is
    run with no [--stack] at all, although the loop did record [prod]. *)
Theorem C1_stack_flag_is_not_used :
  stack (scan (argv Demo.stackFlagAndEnv) (initVars Demo.stackFlagAndEnv))
    = "prod"
  /\ filter isSpawn (trace (script Demo.stackFlagAndEnv))
     = [SpawnSync "pulumi"
          ["up"; "--stack"; "dev"; "--policy-pack"; "/opt/runner/pulumiPolicy"]
          "/opt/runner/pulumiTemplate"]
  /\ stack (scan (argv Demo.stackFlagOnly) (initVars Demo.stackFlagOnly))
     = "prod"
  /\ filter isSpawn (trace (script Demo.stackFlagOnly))
     = [SpawnSync "pulumi"
          ["up"; "--policy-pack"; "/opt/runner/pulumiPolicy"]
          "/opt/runner/pulumiTemplate"].
Proof. repeat split; vm_compute; reflexivity. Qed.

(** ** C2: tokens before the command literal *)

(** At a command literal the loop assigns [args.slice(i + 1)] to
    [remainingArgs]: whatever was pushed before is gone. *)
Lemma scan_command_overwrites (pre post : list string) (c : string) (v : Vars) :
  scanEnd pre = AtBoundary ->
  isValueFlag c = false ->
  isCommand c = true ->
  remainingArgs (scan (pre ++ c :: post) v) = post
  /\ command (scan (pre ++ c :: post) v) = c.
Proof.
  intros Hpre Hf Hc. rewrite (scan_app_boundary pre _ _ Hpre).
  destruct (not_flag_eqbs c Hf) as (H1 & H2 & H3).
  destruct post as [| p post].
  - rewrite scan_last, Hc. split; reflexivity.
  - rewrite scan_two, H1, H2, H3, Hc. split; reflexivity.
Qed.

(** C2 (evaluation of the code where the claim fails). With the arguments
    [--diff up --yes], the token [--diff] is pushed to [remainingArgs] when
    it is read (the loop on [--diff] alone returns it), and is lost at the
    command literal: [parseArgs] returns [remainingArgs = ["--yes"]], and
    the CLI is run without [--diff]. *)
Theorem C2_tokens_before_command_are_dropped :
  remainingArgs (scan ["--diff"] (initVars Demo.tokenBeforeCommand))
    = ["--diff"]
  /\ (exists cfg,
        result (parseArgs Demo.tokenBeforeCommand) = inl cfg
        /\ cfg_command cfg = "up"
        /\ cfg_remainingArgs cfg = ["--yes"])
  /\ filter isSpawn (trace (script Demo.tokenBeforeCommand))
     = [SpawnSync "pulumi"
          ["up"; "--yes"; "--policy-pack"; "/opt/runner/pulumiPolicy"]
          "/opt/runner/pulumiTemplate"].
Proof.
  split; [reflexivity |]. split.
  - eexists. split; [reflexivity |]. split; reflexivity.
  - vm_compute. reflexivity.
Qed.

(** ** C10: a value flag as the last token *)

(** C10 (amended). Let a value flag [F] be the last token, and let the loop
    not be waiting for a value when it gets there (the token before [F] was
    not read as a flag that takes [F] as its value).  Then [F] is the last
    element of [remainingArgs], and [policyDir], [projectDir], [stack] and
    [command] are what the loop on the tokens before [F] produces; if also
    no earlier token is [F], the variable of [F] still holds its initial
    value, the one taken from the environment. *)
Theorem C10_trailing_flag_is_passed_through (h : Host) (pre : list string)
  (F : string) :
  argv h = (pre ++ [F])%list ->
  isValueFlag F = true ->
  scanEnd pre <> PendingValue ->
  let before := scan pre (initVars h) in
  let after := scan (argv h) (initVars h) in
  (exists front, remainingArgs after = (front ++ [F])%list)
  /\ policyDir after = policyDir before
  /\ projectDir after = projectDir before
  /\ stack after = stack before
  /\ command after = command before
  /\ (~ In F pre -> fieldOf F after = fieldOf F (initVars h)).
Proof.
  intros Hargv HF Hend before after.
  assert (Hc : isCommand F = false).
  { unfold isValueFlag in HF.
    destruct (String.eqb F "--policy-dir") eqn:H1;
      [apply String.eqb_eq in H1; subst F; reflexivity |].
    destruct (String.eqb F "--project-dir") eqn:H2;
      [apply String.eqb_eq in H2; subst F; reflexivity |].
    destruct (String.eqb F "--stack") eqn:H3;
      [apply String.eqb_eq in H3; subst F; reflexivity | discriminate]. }
  assert (Hafter :
    after = push before F
    \/ after = set_command before (command before)
                 (remainingArgs before ++ [F])%list).
  { subst after before. rewrite Hargv.
    destruct (scanEnd pre) eqn:Hse; [left | congruence | right].
    - rewrite (scan_app_boundary pre _ _ Hse), scan_last, Hc. reflexivity.
    - apply scan_app_stopped. exact Hse. }
  assert (Hfields :
    (exists front, remainingArgs after = (front ++ [F])%list)
    /\ policyDir after = policyDir before
    /\ projectDir after = projectDir before
    /\ stack after = stack before
    /\ command after = command before).
  { destruct Hafter as [-> | ->]; (split; [eexists; reflexivity |]);
      repeat split. }
  destruct Hfields as (Hr & Hp & Hj & Hs & Hcmd).
  repeat (split; [assumption |]).
  intros Hnin.
  transitivity (fieldOf F before).
  - unfold fieldOf. rewrite Hp, Hj, Hs. reflexivity.
  - subst before. apply scan_keeps_field; assumption.
Qed.

Lemma C10_trailing_flag_is_passed_through_witness :
  (exists front,
     remainingArgs (scan (argv Demo.trailingStack) (initVars Demo.trailingStack))
     = (front ++ ["--stack"])%list)
  /\ stack (scan (argv Demo.trailingStack) (initVars Demo.trailingStack))
     = stack (initVars Demo.trailingStack).
Proof.
  destruct (C10_trailing_flag_is_passed_through Demo.trailingStack ["--diff"]
              "--stack") as (Hr & _ & _ & _ & _ & Hf).
  - reflexivity.
  - reflexivity.
  - discriminate.
  - split; [exact Hr |]. apply Hf. absent.
Defined.

(** C10, as stated, fails.  With the arguments [--stack --policy-dir], the
    last token is [--policy-dir] and nothing follows it; the loop takes it
    as the value of [--stack], and [remainingArgs] stays empty. *)
Lemma C10_counterexample :
  argv Demo.trailingFlagAsValue = (["--stack"] ++ ["--policy-dir"])%list
  /\ stack (scan (argv Demo.trailingFlagAsValue)
              (initVars Demo.trailingFlagAsValue)) = "--policy-dir"
  /\ remainingArgs (scan (argv Demo.trailingFlagAsValue)
                      (initVars Demo.trailingFlagAsValue)) = []
  /\ ~ In "--policy-dir"
       (remainingArgs (scan (argv Demo.trailingFlagAsValue)
                         (initVars Demo.trailingFlagAsValue)))
  /\ exists cfg,
       result (parseArgs Demo.trailingFlagAsValue) = inl cfg
       /\ cfg_remainingArgs cfg = [].
Proof.
  repeat split.
  - intros [].
  - eexists. split; reflexivity.
Qed.

(** ** Traces and results of sequenced computations *)

Lemma trace_bind {A B} (m : M A) (f : A -> M B) :
  trace (bind m f)
  = (trace m ++ match result m with
                | inl a => trace (f a)
                | inr _ => []
                end)%list.
Proof.
  destruct m as [t [a | s]]; cbn [trace result fst snd].
  - rewrite bind_step. reflexivity.
  - cbn. rewrite app_nil_r. reflexivity.
Qed.

Lemma result_bind {A B} (m : M A) (f : A -> M B) :
  result (bind m f)
  = match result m with
    | inl a => result (f a)
    | inr s => inr s
    end.
Proof.
  destruct m as [t [a | s]]; cbn [trace result fst snd].
  - rewrite bind_step. reflexivity.
  - reflexivity.
Qed.

Lemma noSpawn_app (t u : list Event) :
  noSpawn t -> noSpawn u -> noSpawn (t ++ u).
Proof.
  unfold noSpawn. intros Ht Hu. rewrite filter_app, Ht, Hu. reflexivity.
Qed.

Lemma noSpawn_bind {A B} (m : M A) (f : A -> M B) :
  noSpawn (trace m) -> (forall a, noSpawn (trace (f a))) ->
  noSpawn (trace (bind m f)).
Proof.
  intros Hm Hf. rewrite trace_bind. apply noSpawn_app; [exact Hm |].
  destruct (result m); [apply Hf | reflexivity].
Qed.

Lemma noExit_bind {A B} (m : M A) (f : A -> M B) :
  noExit m -> (forall a, noExit (f a)) -> noExit (bind m f).
Proof.
  intros Hm Hf code. rewrite result_bind.
  destruct (result m) as [a | s] eqn:Hr; [apply Hf |].
  intros Heq. injection Heq as ->. exact (Hm code Hr).
Qed.

Lemma noSpawn_log (message color : string) : noSpawn (trace (log message color)).
Proof. reflexivity. Qed.

Lemma noExit_log (message color : string) : noExit (log message color).
Proof. intros code. discriminate. Qed.

Lemma noSpawn_lift {A} (r : Res A) : noSpawn (trace (lift r)).
Proof. destruct r; reflexivity. Qed.

Lemma noExit_lift {A} (r : Res A) : noExit (lift r).
Proof. intros code. destruct r; discriminate. Qed.

Create HintDb quiet.
#[local] Hint Resolve noSpawn_log noExit_log noSpawn_lift noExit_lift : quiet.

(** ** The blocks of [main] *)

Lemma banner_noSpawn (h : Host) (cfg : Config) : noSpawn (trace (banner h cfg)).
Proof.
  unfold banner, resolve.
  repeat (apply noSpawn_bind; [| intros ?]); auto with quiet.
  destruct (truthy (PULUMI_STACK h)); [auto with quiet | reflexivity].
Qed.

Lemma banner_noExit (h : Host) (cfg : Config) : noExit (banner h cfg).
Proof.
  unfold banner, resolve.
  repeat (apply noExit_bind; [| intros ?]); auto with quiet.
  destruct (truthy (PULUMI_STACK h)); [auto with quiet |].
  intros code. discriminate.
Qed.

Lemma banner_returns (h : Host) (cfg : Config) (a1 a2 : string) :
  path_resolve h (cfg_policyDir cfg) = Ok a1 ->
  path_resolve h (cfg_projectDir cfg) = Ok a2 ->
  result (banner h cfg) = inl tt.
Proof.
  intros H1 H2. unfold banner, resolve.
  repeat (rewrite result_bind; cbn [result snd log emit]).
  destruct (truthy (PULUMI_STACK h)); cbn [result snd log emit ret];
    rewrite H1; cbn [lift result snd ret];
    rewrite H2; reflexivity.
Qed.

Lemma directoryExists_eq (h : Host) (dir : string) :
  directoryExists h dir = ([StatSync dir], inl (isDir h dir)).
Proof.
  unfold directoryExists, statSync, isDir.
  destruct (fs_entry h dir); reflexivity.
Qed.

Lemma isDir_true (h : Host) (p : string) :
  isDir h p = true <-> fs_entry h p = Some Directory.
Proof.
  unfold isDir. destruct (fs_entry h p) as [[|] |]; cbn; split; congruence.
Qed.

Lemma checkDirectories_pass (h : Host) (cfg : Config) :
  fs_entry h (cfg_policyDir cfg) = Some Directory ->
  fs_entry h (cfg_projectDir cfg) = Some Directory ->
  checkDirectories h cfg
  = ([StatSync (cfg_policyDir cfg); StatSync (cfg_projectDir cfg)], inl tt).
Proof.
  intros H1 H2. unfold checkDirectories. rewrite !directoryExists_eq.
  apply isDir_true in H1, H2. rewrite H1, H2. reflexivity.
Qed.

Lemma checkDirectories_project_missing (h : Host) (cfg : Config) :
  fs_entry h (cfg_projectDir cfg) <> Some Directory ->
  result (checkDirectories h cfg) = inr (Exit (Some 1%Z))
  /\ noSpawn (trace (checkDirectories h cfg)).
Proof.
  intros H2. unfold checkDirectories. rewrite !directoryExists_eq.
  assert (Hp : isDir h (cfg_projectDir cfg) = false).
  { destruct (isDir h (cfg_projectDir cfg)) eqn:E; [| reflexivity].
    apply isDir_true in E. contradiction. }
  rewrite Hp. destruct (isDir h (cfg_policyDir cfg)); split; reflexivity.
Qed.

(** [runPulumi] spawns the CLI once; how it ends follows the status that
    [spawnSync] reports. *)
Lemma runPulumi_runs (h : Host) (cfg : Config) :
  filter isSpawn (trace (runPulumi h cfg)) = [invocation h cfg]
  /\ match pulumiStatus h cfg with
     | Ok (Some 0%Z) =>
       result (runPulumi h cfg) = inl tt
       /\ In (logged (successMessage (cfg_command cfg)) colors.green)
             (trace (runPulumi h cfg))
     | Ok status =>
       result (runPulumi h cfg) = inr (Exit status)
       /\ In (logged (failureMessage (cfg_command cfg)) colors.red)
             (trace (runPulumi h cfg))
     | Throw msg => result (runPulumi h cfg) = inr (Raise msg)
     end.
Proof.
  unfold runPulumi, runCommand, pulumiStatus, invocation.
  set (args := pulumiArgs _ _ _).
  destruct (truthy (PULUMI_STACK h)
            && negb (includes "--stack" (cfg_remainingArgs cfg)));
    destruct (child_status h "pulumi" (cfg_command cfg :: args)
                (cfg_projectDir cfg)) as [[[| p | p] |] | msg];
    (split; [reflexivity |]);
    try reflexivity;
    (split; [reflexivity |]);
    cbn; auto 10.
Qed.

Lemma trace_catch {A} (m : M A) (handler : string -> M A) :
  trace (catch m handler)
  = (trace m ++ match result m with
                | inr (Raise msg) => trace (handler msg)
                | _ => []
                end)%list.
Proof.
  destruct m as [t [a | [code | msg]]]; cbn [catch trace result fst snd];
    try (rewrite app_nil_r; reflexivity).
  destruct (handler msg); reflexivity.
Qed.

Lemma result_catch {A} (m : M A) (handler : string -> M A) :
  result (catch m handler)
  = match result m with
    | inr (Raise msg) => result (handler msg)
    | r => r
    end.
Proof.
  destruct m as [t [a | [code | msg]]]; cbn [catch trace result fst snd];
    try reflexivity.
  destruct (handler msg); reflexivity.
Qed.

Lemma parseArgs_noSpawn (h : Host) : noSpawn (trace (parseArgs h)).
Proof.
  unfold parseArgs, resolve.
  repeat (apply noSpawn_bind; [| intros ?]); auto with quiet.
  - destruct (wantsHelp (argv h)); reflexivity.
  - unfold defaultPolicyDir, existsSync.
    destruct (truthy _); [reflexivity |].
    destruct (fs_entry h "./pulumiPolicy"); reflexivity.
  - reflexivity.
Qed.

(** The script, once [parseArgs] has returned [cfg]. *)
Lemma script_trace (h : Host) (cfg : Config) :
  result (parseArgs h) = inl cfg ->
  trace (script h)
  = (trace (parseArgs h) ++ trace (catch (main h cfg) onUnhandled))%list.
Proof. intros Hp. unfold script. rewrite trace_bind, Hp. reflexivity. Qed.

Lemma script_result (h : Host) (cfg : Config) :
  result (parseArgs h) = inl cfg ->
  result (script h) = result (catch (main h cfg) onUnhandled).
Proof. intros Hp. unfold script. rewrite result_bind, Hp. reflexivity. Qed.

(** [main], when the banner is printed and both directories exist, is the
    banner, the two checks and [runPulumi]. *)
Lemma main_reaches_pulumi (h : Host) (cfg : Config) (a1 a2 : string) :
  path_resolve h (cfg_policyDir cfg) = Ok a1 ->
  path_resolve h (cfg_projectDir cfg) = Ok a2 ->
  fs_entry h (cfg_policyDir cfg) = Some Directory ->
  fs_entry h (cfg_projectDir cfg) = Some Directory ->
  result (main h cfg) = result (runPulumi h cfg)
  /\ trace (main h cfg)
     = (trace (banner h cfg)
        ++ [StatSync (cfg_policyDir cfg); StatSync (cfg_projectDir cfg)]
        ++ trace (runPulumi h cfg))%list.
Proof.
  intros H1 H2 D1 D2. unfold main. split.
  - rewrite result_bind, (banner_returns h cfg a1 a2 H1 H2).
    rewrite result_bind, (checkDirectories_pass h cfg D1 D2). reflexivity.
  - rewrite trace_bind, (banner_returns h cfg a1 a2 H1 H2).
    rewrite trace_bind, (checkDirectories_pass h cfg D1 D2). reflexivity.
Qed.

Lemma filter_spawn_app (t u : list Event) :
  noSpawn t -> filter isSpawn (t ++ u) = filter isSpawn u.
Proof. intros Ht. rewrite filter_app, Ht. reflexivity. Qed.

(** ** C6: the argument list of the CLI *)

(** The argument list that [runPulumi] builds, for the only stack [main]
    knows, the constant [PULUMI_STACK] read from the environment.  The one
    process that [runPulumi] spawns is [pulumi], with the command followed
    by [args].  If [PULUMI_STACK] is not empty and the passthrough arguments
    do not contain the token [--stack], [args] is [--stack <PULUMI_STACK>],
    then the passthrough arguments, then [--policy-pack <policyDir>]; if the
    passthrough arguments contain [--stack], or if [PULUMI_STACK] is empty,
    [args] is the passthrough arguments, unchanged, then
    [--policy-pack <policyDir>].  In all cases [args] ends with
    [--policy-pack <policyDir>]. *)
Lemma env_stack_argument_list (h : Host) (cfg : Config) :
  let stack := PULUMI_STACK h in
  let passthrough := cfg_remainingArgs cfg in
  let args := pulumiArgs stack passthrough (cfg_policyDir cfg) in
  filter isSpawn (trace (runPulumi h cfg))
    = [SpawnSync "pulumi" (cfg_command cfg :: args) (cfg_projectDir cfg)]
  /\ (stack <> "" -> ~ In "--stack" passthrough ->
      args = ("--stack" :: stack :: passthrough
              ++ ["--policy-pack"; cfg_policyDir cfg])%list)
  /\ (In "--stack" passthrough ->
      args = (passthrough ++ ["--policy-pack"; cfg_policyDir cfg])%list)
  /\ (stack = "" ->
      args = (passthrough ++ ["--policy-pack"; cfg_policyDir cfg])%list)
  /\ exists front,
       args = (front ++ ["--policy-pack"; cfg_policyDir cfg])%list.
Proof.
  intros stack passthrough args.
  split; [apply runPulumi_runs |]. subst args. unfold pulumiArgs.
  split; [| split; [| split]].
  - intros Hs Hn. rewrite (truthy_nonempty _ Hs).
    apply includes_not_In in Hn. rewrite Hn. reflexivity.
  - intros Hin. apply includes_In in Hin. rewrite Hin, andb_false_r.
    reflexivity.
  - intros ->. reflexivity.
  - eexists. reflexivity.
Qed.

Lemma env_stack_argument_list_example :
  pulumiArgs "dev" ["--yes"] "/opt/runner/pulumiPolicy"
    = ["--stack"; "dev"; "--yes"; "--policy-pack"; "/opt/runner/pulumiPolicy"]
  /\ pulumiArgs "dev" ["--stack"; "prod-explicit"] "/opt/runner/pulumiPolicy"
     = ["--stack"; "prod-explicit"; "--policy-pack"; "/opt/runner/pulumiPolicy"].
Proof.
  split.
  - destruct (env_stack_argument_list Demo.stackFlagAndEnv Demo.cfgYes)
      as (_ & H & _).
    apply H; [discriminate | absent].
  - destruct (env_stack_argument_list Demo.stackFlagAndEnv Demo.cfgOwnStack)
      as (_ & _ & H & _).
    apply H. left. reflexivity.
Qed.

(** C6 (evaluation of the code where the claim fails). The stack of a
    [--stack] flag does not reach the argument list.  With the arguments
    [--stack prod preview --diff] and no [PULUMI_STACK], the loop resolves
    the stack to [prod] and the remaining arguments [--diff] hold no
    [--stack] token, but the CLI is run with [preview --diff --policy-pack
    <policyDir>]: the list does not begin with [--stack prod].  With
    [PULUMI_STACK=dev] and the same arguments, the list begins with
    [--stack dev].  In both runs [--policy-pack <policyDir>] ends the list.
    The flag's value stays in the local variable [stack] of [parseArgs]. *)
Theorem C6_flag_stack_is_not_injected :
  stack (scan (argv Sample.flagStackNoEnv) (initVars Sample.flagStackNoEnv))
    = "prod"
  /\ env Sample.flagStackNoEnv "PULUMI_STACK" = None
  /\ (exists cfg,
        result (parseArgs Sample.flagStackNoEnv) = inl cfg
        /\ cfg_remainingArgs cfg = ["--diff"]
        /\ ~ In "--stack" (cfg_remainingArgs cfg))
  /\ filter isSpawn (trace (script Sample.flagStackNoEnv))
     = [SpawnSync "pulumi"
          ["preview"; "--diff"; "--policy-pack"; "/opt/runner/pulumiPolicy"]
          "/opt/runner/pulumiTemplate"]
  /\ stack (scan (argv Sample.flagStackOverEnv)
              (initVars Sample.flagStackOverEnv)) = "prod"
  /\ env Sample.flagStackOverEnv "PULUMI_STACK" = Some "dev"
  /\ filter isSpawn (trace (script Sample.flagStackOverEnv))
     = [SpawnSync "pulumi"
          ["preview"; "--stack"; "dev"; "--diff"; "--policy-pack";
           "/opt/runner/pulumiPolicy"]
          "/opt/runner/pulumiTemplate"].
Proof.
  split; [reflexivity |]. split; [reflexivity |]. split.
  - eexists. split; [reflexivity |]. split; [reflexivity |]. absent.
  - split; [vm_compute; reflexivity |]. split; [reflexivity |].
    split; [reflexivity |]. vm_compute. reflexivity.
Qed.

(** ** C7: the exit status of the child *)

(** C7. Let [parseArgs] return [cfg], let the banner of [main] be printed
    (the two [path.resolve] calls in it return), let both directories exist,
    and let the spawned CLI exit with status [n].  Then the CLI is the one
    process spawned, and the exit status of the wrapper is [n]: for [n = 0]
    the success line is logged and the script runs to its end; for any other
    [n] the failure line is logged and [process.exit(n)] is called. *)
Theorem C7_child_status_is_propagated (h : Host) (cfg : Config)
  (a1 a2 : string) (n : Z) :
  result (parseArgs h) = inl cfg ->
  path_resolve h (cfg_policyDir cfg) = Ok a1 ->
  path_resolve h (cfg_projectDir cfg) = Ok a2 ->
  fs_entry h (cfg_policyDir cfg) = Some Directory ->
  fs_entry h (cfg_projectDir cfg) = Some Directory ->
  pulumiStatus h cfg = Ok (Some n) ->
  filter isSpawn (trace (script h)) = [invocation h cfg]
  /\ exitStatus (outcome h) = n
  /\ (n = 0%Z ->
      outcome h = Completed
      /\ In (logged (successMessage (cfg_command cfg)) colors.green)
            (trace (script h)))
  /\ (n <> 0%Z ->
      outcome h = Exited (Some n)
      /\ In (logged (failureMessage (cfg_command cfg)) colors.red)
            (trace (script h))).
Proof.
  intros Hp H1 H2 D1 D2 Hst.
  destruct (main_reaches_pulumi h cfg a1 a2 H1 H2 D1 D2) as [Hres Htr].
  destruct (runPulumi_runs h cfg) as [Hspawn Hend]. rewrite Hst in Hend.
  assert (Hnoraise : result (catch (main h cfg) onUnhandled)
                     = result (runPulumi h cfg)).
  { rewrite result_catch, Hres.
    destruct n as [| p | p]; destruct Hend as [-> _]; reflexivity. }
  assert (Htrace : trace (script h)
                   = (trace (parseArgs h) ++ trace (banner h cfg)
                      ++ [StatSync (cfg_policyDir cfg);
                          StatSync (cfg_projectDir cfg)]
                      ++ trace (runPulumi h cfg))%list).
  { rewrite (script_trace h cfg Hp), trace_catch, Hres, Htr.
    destruct n as [| p | p]; destruct Hend as [-> _];
      rewrite app_nil_r; reflexivity. }
  assert (Hin : forall e, In e (trace (runPulumi h cfg)) ->
                          In e (trace (script h))).
  { intros e He. rewrite Htrace. apply in_or_app. right.
    apply in_or_app. right. right. right. exact He. }
  assert (Hout : outcome h = match n with
                             | 0%Z => Completed
                             | _ => Exited (Some n)
                             end).
  { unfold outcome. rewrite (script_result h cfg Hp), Hnoraise.
    destruct n as [| p | p]; destruct Hend as [-> _]; reflexivity. }
  split; [| split; [| split]].
  - rewrite Htrace.
    rewrite (filter_spawn_app _ _ (parseArgs_noSpawn h)).
    rewrite (filter_spawn_app _ _ (banner_noSpawn h cfg)).
    exact Hspawn.
  - rewrite Hout. destruct n; reflexivity.
  - intros ->. split; [exact Hout |]. apply Hin. apply Hend.
  - intros Hn. destruct n as [| p | p]; [congruence | |];
      (split; [exact Hout |]); apply Hin; apply Hend.
Qed.

Lemma C7_child_status_is_propagated_witness :
  exitStatus (outcome Demo.childExits7) = 7%Z
  /\ outcome Demo.childExits7 = Exited (Some 7%Z).
Proof.
  destruct (C7_child_status_is_propagated Demo.childExits7
              {| cfg_policyDir := "/opt/runner/pulumiPolicy";
                 cfg_projectDir := "/opt/runner/pulumiTemplate";
                 cfg_command := "up";
                 cfg_remainingArgs := [] |}
              "/opt/runner/pulumiPolicy" "/opt/runner/pulumiTemplate" 7%Z)
    as (_ & Hs & _ & Hn); try reflexivity.
  split; [exact Hs |]. apply Hn. discriminate.
Defined.

(** ** C9: a missing project directory *)

(** C9. Let [parseArgs] return [cfg] (so [argv] holds no help token), and
    let the resolved project directory not be a directory on disk.  Then the
    wrapper calls [process.exit(1)], its exit status is 1, and no process is
    spawned. *)
Theorem C9_missing_project_dir (h : Host) (cfg : Config) :
  result (parseArgs h) = inl cfg ->
  fs_entry h (cfg_projectDir cfg) <> Some Directory ->
  outcome h = Exited (Some 1%Z)
  /\ exitStatus (outcome h) = 1%Z
  /\ noSpawn (trace (script h)).
Proof.
  intros Hp Hmiss.
  destruct (checkDirectories_project_missing h cfg Hmiss) as [Hcr Hct].
  assert (Hres : result (catch (main h cfg) onUnhandled)
                 = inr (Exit (Some 1%Z))).
  { rewrite result_catch. unfold main. rewrite result_bind.
    destruct (result (banner h cfg)) as [[] | [code | msg]] eqn:Hb.
    - rewrite result_bind, Hcr. reflexivity.
    - exfalso. exact (banner_noExit h cfg code Hb).
    - reflexivity. }
  assert (Hout : outcome h = Exited (Some 1%Z)).
  { unfold outcome. rewrite (script_result h cfg Hp), Hres. reflexivity. }
  split; [exact Hout |]. split; [rewrite Hout; reflexivity |].
  rewrite (script_trace h cfg Hp).
  apply noSpawn_app; [apply parseArgs_noSpawn |].
  rewrite trace_catch. unfold main. rewrite trace_bind, result_bind.
  destruct (result (banner h cfg)) as [[] | [code | msg]] eqn:Hb.
  - rewrite trace_bind, result_bind, Hcr.
    repeat apply noSpawn_app;
      solve [apply banner_noSpawn | exact Hct | reflexivity].
  - exfalso. exact (banner_noExit h cfg code Hb).
  - repeat apply noSpawn_app; solve [apply banner_noSpawn | reflexivity].
Qed.

Lemma C9_missing_project_dir_witness :
  outcome Demo.projectMissing = Exited (Some 1%Z)
  /\ exitStatus (outcome Demo.projectMissing) = 1%Z
  /\ noSpawn (trace (script Demo.projectMissing)).
Proof.
  apply (C9_missing_project_dir Demo.projectMissing
           {| cfg_policyDir := "/opt/runner/pulumiPolicy";
              cfg_projectDir := "/srv/infra";
              cfg_command := "up";
              cfg_remainingArgs := [] |}).
  - reflexivity.
  - discriminate.
Defined.

(** ** C3: exceptions *)

(** Let [parseArgs] return [cfg].  Every exception raised in [main] is
    caught by the handler attached to [main()]: the handler logs
    [Unhandled error: <message>] as the last line of the run and calls
    [process.exit(1)].  In particular, when the banner is printed, both
    directories exist and [spawnSync] throws, [main] raises that exception
    after the spawn attempt. *)
Lemma exceptions_in_main_are_handled (h : Host) (cfg : Config) :
  result (parseArgs h) = inl cfg ->
  (forall msg,
     result (main h cfg) = inr (Raise msg) ->
     outcome h = Exited (Some 1%Z)
     /\ exitStatus (outcome h) = 1%Z
     /\ trace (script h)
        = (trace (parseArgs h) ++ trace (main h cfg)
           ++ [logged (unhandledMessage msg) colors.red])%list)
  /\ (forall a1 a2 msg,
        path_resolve h (cfg_policyDir cfg) = Ok a1 ->
        path_resolve h (cfg_projectDir cfg) = Ok a2 ->
        fs_entry h (cfg_policyDir cfg) = Some Directory ->
        fs_entry h (cfg_projectDir cfg) = Some Directory ->
        pulumiStatus h cfg = Throw msg ->
        result (main h cfg) = inr (Raise msg)
        /\ In (invocation h cfg) (trace (main h cfg))).
Proof.
  intros Hp. split.
  - intros msg Hraise.
    assert (Hout : outcome h = Exited (Some 1%Z)).
    { unfold outcome.
      rewrite (script_result h cfg Hp), result_catch, Hraise. reflexivity. }
    split; [exact Hout |]. split; [rewrite Hout; reflexivity |].
    rewrite (script_trace h cfg Hp), trace_catch, Hraise. reflexivity.
  - intros a1 a2 msg H1 H2 D1 D2 Hst.
    destruct (main_reaches_pulumi h cfg a1 a2 H1 H2 D1 D2) as [Hres Htr].
    destruct (runPulumi_runs h cfg) as [Hspawn Hend]. rewrite Hst in Hend.
    split; [rewrite Hres; exact Hend |].
    rewrite Htr. apply in_or_app. right. right. right.
    assert (Hin : In (invocation h cfg)
                     (filter isSpawn (trace (runPulumi h cfg)))).
    { rewrite Hspawn. left. reflexivity. }
    apply filter_In in Hin. apply Hin.
Qed.

Lemma exceptions_in_main_are_handled_example :
  outcome Demo.spawnThrows = Exited (Some 1%Z)
  /\ exitStatus (outcome Demo.spawnThrows) = 1%Z
  /\ In (logged (unhandledMessage "spawnSync pulumi EINVAL") colors.red)
        (trace (script Demo.spawnThrows)).
Proof.
  destruct (exceptions_in_main_are_handled Demo.spawnThrows
              {| cfg_policyDir := "/opt/runner/pulumiPolicy";
                 cfg_projectDir := "/opt/runner/pulumiTemplate";
                 cfg_command := "preview";
                 cfg_remainingArgs := [] |} eq_refl) as [Hgen Hspawn].
  destruct (Hspawn "/opt/runner/pulumiPolicy" "/opt/runner/pulumiTemplate"
              "spawnSync pulumi EINVAL" eq_refl eq_refl eq_refl eq_refl eq_refl)
    as [Hraise _].
  destruct (Hgen _ Hraise) as (Hout & Hst & Htr).
  split; [exact Hout |]. split; [exact Hst |].
  rewrite Htr. apply in_or_app. right. apply in_or_app. right.
  left. reflexivity.
Qed.

(** [parseArgs] is called at module level, before [main()] and its handler
    exist.  An exception raised there leaves the script uncaught: the
    wrapper's handler logs nothing, and node ends the process with its
    status for an uncaught exception, 1. *)
Lemma exception_in_parseArgs_is_uncaught (h : Host) (msg : string) :
  result (parseArgs h) = inr (Raise msg) ->
  outcome h = Uncaught msg
  /\ exitStatus (outcome h) = 1%Z
  /\ trace (script h) = trace (parseArgs h).
Proof.
  intros Hp.
  assert (Hout : outcome h = Uncaught msg).
  { unfold outcome, script. rewrite result_bind, Hp. reflexivity. }
  split; [exact Hout |]. split; [rewrite Hout; reflexivity |].
  unfold script. rewrite trace_bind, Hp. apply app_nil_r.
Qed.

(** With [POLICY_DIR=policies] and a working directory that has been
    removed, [path.resolve] throws inside [parseArgs]. *)
Lemma exception_in_parseArgs_is_uncaught_example :
  outcome Demo.cwdGone = Uncaught "ENOENT: no such file or directory, uv_cwd"
  /\ exitStatus (outcome Demo.cwdGone) = 1%Z
  /\ trace (script Demo.cwdGone) = [].
Proof.
  destruct (exception_in_parseArgs_is_uncaught Demo.cwdGone
              "ENOENT: no such file or directory, uv_cwd" eq_refl)
    as (Hout & Hst & Htr).
  split; [exact Hout |]. split; [exact Hst |]. rewrite Htr. reflexivity.
Qed.

(** C3 (evaluation of the code where the claim fails). When the [pulumi]
    binary is missing, [spawnSync] does not throw: it returns a result whose
    [status] is [null], and [runCommand] returns that status without looking
    at [result.error].  No exception exists for the handler of [main()] to
    catch.  The run spawns the CLI, logs the failure line and calls
    [process.exit(null)]: no [Unhandled error] line is logged, whatever the
    message, and the exit status is 0, not 1. *)
Theorem C3_missing_binary_exits_zero :
  (exists cfg,
     result (parseArgs Demo.binaryMissing) = inl cfg
     /\ pulumiStatus Demo.binaryMissing cfg = Ok None)
  /\ filter isSpawn (trace (script Demo.binaryMissing))
     = [SpawnSync "pulumi"
          ["preview"; "--policy-pack"; "/opt/runner/pulumiPolicy"]
          "/opt/runner/pulumiTemplate"]
  /\ In (logged (failureMessage "preview") colors.red)
        (trace (script Demo.binaryMissing))
  /\ (forall msg,
        ~ In (logged (unhandledMessage msg) colors.red)
             (trace (script Demo.binaryMissing)))
  /\ outcome Demo.binaryMissing = Exited None
  /\ exitStatus (outcome Demo.binaryMissing) = 0%Z
  /\ exitStatus (outcome Demo.binaryMissing) <> 1%Z.
Proof.
  split; [eexists; split; reflexivity |].
  split; [vm_compute; reflexivity |].
  split; [vm_compute; auto 30 |].
  split; [| split; [reflexivity | split; [reflexivity | discriminate]]].
  intros msg. vm_compute. intuition discriminate.
Qed.

(** * Further properties of the script *)

(** ** What a returned configuration is made of *)

(** Whenever [parseArgs] returns, there was no help token, the command and
    the remaining arguments are those of the loop, and the two directories
    are the resolved choices. *)
Lemma parseArgs_inv (h : Host) (cfg : Config) :
  result (parseArgs h) = inl cfg ->
  let v := scan (argv h) (initVars h) in
  wantsHelp (argv h) = false
  /\ cfg_command cfg = command v
  /\ cfg_remainingArgs cfg = remainingArgs v
  /\ (exists raw,
        result (defaultPolicyDir h (policyDir v)) = inl raw
        /\ path_resolve h raw = Ok (cfg_policyDir cfg))
  /\ path_resolve h (defaultProjectDir h (projectDir v)) = Ok (cfg_projectDir cfg).
Proof.
  intros Hp v. unfold parseArgs in Hp. fold v in Hp.
  destruct (wantsHelp (argv h)) eqn:Hw; [discriminate |].
  rewrite bind_ret_l, result_bind in Hp.
  destruct (result (defaultPolicyDir h (policyDir v))) as [raw |] eqn:Hd;
    [| discriminate].
  unfold resolve in Hp. rewrite result_bind in Hp.
  destruct (path_resolve h raw) as [a |] eqn:Ha; [| discriminate].
  cbn [lift ret result snd] in Hp. rewrite result_bind in Hp.
  destruct (path_resolve h (defaultProjectDir h (projectDir v))) as [b |] eqn:Hb;
    [| discriminate].
  cbn in Hp. injection Hp as <-. cbn.
  repeat split. exists raw. split; [reflexivity | exact Ha].
Qed.

Lemma command_not_flag (c : string) : isCommand c = true -> isValueFlag c = false.
Proof.
  intros Hc. apply includes_In in Hc.
  cbn in Hc. destruct Hc as [<- | [<- | [<- | [<- | []]]]]; reflexivity.
Qed.

(** ** The command *)

Lemma scan_command_literal (args : list string) :
  forall v : Vars,
  isCommand (command v) = true -> isCommand (command (scan args v)) = true.
Proof.
  induction args as [| a | a b l IHl IHbl] using tokens_ind; intros v Hv.
  - exact Hv.
  - rewrite scan_last. destruct (isCommand a) eqn:Hc; [exact Hc | exact Hv].
  - rewrite scan_two.
    destruct (String.eqb a "--policy-dir"); [apply IHl; exact Hv |].
    destruct (String.eqb a "--project-dir"); [apply IHl; exact Hv |].
    destruct (String.eqb a "--stack"); [apply IHl; exact Hv |].
    destruct (isCommand a) eqn:Hc; [exact Hc | apply IHbl; exact Hv].
Qed.

(** The command that [parseArgs] returns, which is the first argument of the
    spawned CLI, is one of [preview], [up], [refresh], [destroy], whatever
    the arguments and the environment are. *)
Theorem X_command_is_one_of_four (h : Host) (cfg : Config) :
  result (parseArgs h) = inl cfg ->
  In (cfg_command cfg) ["preview"; "up"; "refresh"; "destroy"].
Proof.
  intros Hp. destruct (parseArgs_inv h cfg Hp) as (_ & Hc & _).
  rewrite Hc. apply includes_In.
  apply (scan_command_literal (argv h) (initVars h)). reflexivity.
Qed.

Lemma X_command_is_one_of_four_witness :
  In (cfg_command (Sample.defaultConfig "up")) ["preview"; "up"; "refresh"; "destroy"].
Proof.
  apply (X_command_is_one_of_four Demo.childExits7). reflexivity.
Defined.

(** ** Arguments without a command *)

Lemma scan_plain (args : list string) :
  forall v : Vars,
  (forall a, In a args -> isValueFlag a = false /\ isCommand a = false) ->
  scan args v = set_command v (command v) (remainingArgs v ++ args)%list.
Proof.
  induction args as [| a args IH]; intros v Hall.
  - destruct v. cbn. rewrite app_nil_r. reflexivity.
  - destruct (Hall a (or_introl eq_refl)) as [Hf Hc].
    rewrite (scan_other a args v Hf Hc), IH.
    + cbn. rewrite <- app_assoc. reflexivity.
    + intros x Hx. apply Hall. right. exact Hx.
Qed.

(** When no token is a command literal or one of the three value flags (and
    none is a help flag), the command is the default [preview] and every
    token is forwarded, in order: [remainingArgs] is [argv]. *)
Theorem X_no_command_forwards_everything (h : Host) (cfg : Config) :
  result (parseArgs h) = inl cfg ->
  (forall a, In a (argv h) -> isValueFlag a = false /\ isCommand a = false) ->
  cfg_command cfg = "preview"
  /\ cfg_remainingArgs cfg = argv h.
Proof.
  intros Hp Hall. destruct (parseArgs_inv h cfg Hp) as (_ & Hc & Hr & _).
  rewrite Hc, Hr, (scan_plain _ _ Hall). split; reflexivity.
Qed.

Lemma X_no_command_forwards_everything_witness :
  exists cfg,
    result (parseArgs Sample.plainTokens) = inl cfg
    /\ cfg_command cfg = "preview"
    /\ cfg_remainingArgs cfg = ["--verbose"; "--diff"].
Proof.
  eexists. split; [reflexivity |].
  apply (X_no_command_forwards_everything Sample.plainTokens).
  - reflexivity.
  - intros a [<- | [<- | []]]; split; reflexivity.
Defined.

(** ** Arguments after the command *)

(** With the documented shape [options command args], where the options are
    flag and value pairs that the loop reads up to the command literal [c]:
    the command is [c], the arguments after it are forwarded as they are,
    and none of them is read as an option of the wrapper, even when it is
    [--policy-dir], [--project-dir] or [--stack]: the three variables are
    what the options before the command made them. *)
Theorem X_tokens_after_command_are_not_options (h : Host) (cfg : Config)
  (pre post : list string) (c : string) :
  result (parseArgs h) = inl cfg ->
  argv h = (pre ++ c :: post)%list ->
  scanEnd pre = AtBoundary ->
  remainingArgs (scan pre (initVars h)) = [] ->
  isCommand c = true ->
  cfg_command cfg = c
  /\ cfg_remainingArgs cfg = post
  /\ scan (argv h) (initVars h) = set_command (scan pre (initVars h)) c post.
Proof.
  intros Hp Hargv Hpre Hnone Hc.
  destruct (parseArgs_inv h cfg Hp) as (_ & Hcmd & Hrem & _).
  assert (Hscan : scan (argv h) (initVars h)
                  = set_command (scan pre (initVars h)) c post).
  { rewrite Hargv, (scan_app_boundary pre _ _ Hpre).
    destruct (not_flag_eqbs c (command_not_flag c Hc)) as (H1 & H2 & H3).
    destruct post as [| p post].
    - rewrite scan_last, Hc. reflexivity.
    - rewrite scan_two, H1, H2, H3, Hc. reflexivity. }
  rewrite Hcmd, Hrem, Hscan. repeat split.
Qed.

Lemma X_tokens_after_command_are_not_options_witness :
  exists cfg,
    result (parseArgs Sample.optionsAfterCommand) = inl cfg
    /\ cfg_command cfg = "up"
    /\ cfg_remainingArgs cfg = ["--policy-dir"; "elsewhere"; "--yes"]
    /\ cfg_policyDir cfg = "/opt/runner/pulumiPolicy".
Proof.
  eexists. split; [reflexivity |].
  destruct (X_tokens_after_command_are_not_options Sample.optionsAfterCommand
              {| cfg_policyDir := "/opt/runner/pulumiPolicy";
                 cfg_projectDir := "/opt/runner/pulumiTemplate";
                 cfg_command := "up";
                 cfg_remainingArgs := ["--policy-dir"; "elsewhere"; "--yes"] |}
              ["--stack"; "dev"] ["--policy-dir"; "elsewhere"; "--yes"] "up")
    as (Hc & Hr & _); try reflexivity.
  repeat split; assumption.
Defined.

(** ** The project directory *)

(** The loop reaches, at a token boundary, a [--project-dir] token followed
    by a non-empty token [D], and no [--project-dir] token follows [D]: the
    project directory is [path.resolve(D)], whatever [PULUMI_PROJECT_DIR]
    holds. *)
Theorem X_project_dir_flag_wins (h : Host) (pre rest : list string) (D : string) :
  argv h = (pre ++ "--project-dir" :: D :: rest)%list ->
  scanEnd pre = AtBoundary ->
  ~ In "--help" (argv h) -> ~ In "-h" (argv h) ->
  D <> "" ->
  ~ In "--project-dir" rest ->
  resolvable h ->
  exists cfg,
    result (parseArgs h) = inl cfg
    /\ path_resolve h D = Ok (cfg_projectDir cfg).
Proof.
  intros Hargv Hpre Hh1 Hh2 HD Hrest Hres.
  destruct (parseArgs_returns h (wantsHelp_false _ Hh1 Hh2) Hres)
    as (t & raw & cfg & _ & Hp & _ & Hb & _).
  exists cfg. rewrite Hp. split; [reflexivity |].
  assert (Hv : projectDir (scan (argv h) (initVars h)) = D).
  { rewrite Hargv, (scan_app_boundary pre _ _ Hpre).
    rewrite scan_flag by reflexivity. cbn [String.eqb Ascii.eqb Bool.eqb].
    change (projectDir ?x) with (fieldOf "--project-dir" x).
    rewrite scan_keeps_field by (reflexivity || assumption). reflexivity. }
  rewrite Hv in Hb. unfold defaultProjectDir in Hb.
  rewrite (truthy_nonempty D HD) in Hb. exact Hb.
Qed.

Lemma X_project_dir_flag_wins_witness :
  exists cfg,
    result (parseArgs Sample.projectFlagAndEnv) = inl cfg
    /\ path_resolve Sample.projectFlagAndEnv "infra" = Ok (cfg_projectDir cfg).
Proof.
  apply (X_project_dir_flag_wins Sample.projectFlagAndEnv [] ["up"] "infra").
  - reflexivity.
  - reflexivity.
  - absent.
  - absent.
  - discriminate.
  - absent.
  - apply demo_resolvable.
Defined.

(** Without a [--project-dir] token, the project directory is
    [path.resolve] of [PULUMI_PROJECT_DIR] when that variable is set and not
    empty, and of [path.join(__dirname, "pulumiTemplate")] otherwise.  Unlike
    the policy directory, it has no default in the working directory. *)
Theorem X_project_dir_from_env_or_default (h : Host) :
  ~ In "--help" (argv h) -> ~ In "-h" (argv h) ->
  ~ In "--project-dir" (argv h) ->
  resolvable h ->
  exists cfg,
    result (parseArgs h) = inl cfg
    /\ path_resolve h
         (match env h "PULUMI_PROJECT_DIR" with
          | Some "" | None => path_join h (dirname h) "pulumiTemplate"
          | Some dir => dir
          end) = Ok (cfg_projectDir cfg).
Proof.
  intros Hh1 Hh2 Hflag Hres.
  destruct (parseArgs_returns h (wantsHelp_false _ Hh1 Hh2) Hres)
    as (t & raw & cfg & _ & Hp & _ & Hb & _).
  exists cfg. rewrite Hp. split; [reflexivity |].
  assert (Hv : projectDir (scan (argv h) (initVars h))
               = envOr h "PULUMI_PROJECT_DIR").
  { change (projectDir ?x) with (fieldOf "--project-dir" x).
    rewrite scan_keeps_field by (reflexivity || assumption). reflexivity. }
  rewrite Hv in Hb. unfold defaultProjectDir, envOr, truthy in Hb.
  destruct (env h "PULUMI_PROJECT_DIR") as [[| c dir] |]; exact Hb.
Qed.

Lemma X_project_dir_from_env_or_default_witness :
  (exists cfg,
     result (parseArgs Sample.bothFromEnv) = inl cfg
     /\ cfg_projectDir cfg = "/env/infra")
  /\ (exists cfg,
        result (parseArgs Demo.childExits7) = inl cfg
        /\ cfg_projectDir cfg = "/opt/runner/pulumiTemplate").
Proof.
  split.
  - destruct (X_project_dir_from_env_or_default Sample.bothFromEnv)
      as (cfg & Hp & Hd); try absent; [apply demo_resolvable |].
    exists cfg. split; [exact Hp |]. cbn in Hd. now injection Hd.
  - destruct (X_project_dir_from_env_or_default Demo.childExits7)
      as (cfg & Hp & Hd); try absent; [apply demo_resolvable |].
    exists cfg. split; [exact Hp |]. cbn in Hd. now injection Hd.
Defined.

(** ** The policy directory from the environment *)

(** Without a [--policy-dir] token and with [POLICY_DIR] set and not empty,
    the policy directory is [path.resolve(POLICY_DIR)], and [parseArgs]
    does not look at the file system at all: the local [./pulumiPolicy] is
    not probed. *)
Theorem X_policy_dir_from_env (h : Host) (dir : string) :
  ~ In "--help" (argv h) -> ~ In "-h" (argv h) ->
  ~ In "--policy-dir" (argv h) ->
  env h "POLICY_DIR" = Some dir ->
  dir <> "" ->
  resolvable h ->
  exists cfg,
    parseArgs h = ([], inl cfg)
    /\ path_resolve h dir = Ok (cfg_policyDir cfg).
Proof.
  intros Hh1 Hh2 Hflag Henv Hdir Hres.
  destruct (parseArgs_returns h (wantsHelp_false _ Hh1 Hh2) Hres)
    as (t & raw & cfg & Hd & Hp & Ha & _).
  assert (Hv : policyDir (scan (argv h) (initVars h)) = dir).
  { change (policyDir ?x) with (fieldOf "--policy-dir" x).
    rewrite scan_keeps_field by (reflexivity || assumption).
    cbn. unfold envOr. rewrite Henv. reflexivity. }
  rewrite Hv in Hd. unfold defaultPolicyDir in Hd.
  rewrite (truthy_nonempty dir Hdir) in Hd. injection Hd as <- <-.
  exists cfg. split; assumption.
Qed.

Lemma X_policy_dir_from_env_witness :
  exists cfg,
    parseArgs Sample.bothFromEnv = ([], inl cfg)
    /\ path_resolve Sample.bothFromEnv "policies" = Ok (cfg_policyDir cfg).
Proof.
  apply (X_policy_dir_from_env Sample.bothFromEnv "policies").
  - absent.
  - absent.
  - absent.
  - reflexivity.
  - discriminate.
  - apply demo_resolvable.
Defined.

(** ** Nothing is forwarded that was not given *)

Lemma scan_remaining_incl (args : list string) :
  forall (v : Vars) (x : string),
  In x (remainingArgs (scan args v)) -> In x (remainingArgs v) \/ In x args.
Proof.
  induction args as [| a | a b l IHl IHbl] using tokens_ind; intros v x Hin.
  - left. exact Hin.
  - rewrite scan_last in Hin. destruct (isCommand a).
    + destruct Hin.
    + cbn in Hin. apply in_app_or in Hin. destruct Hin as [Hin | [<- | []]].
      * left. exact Hin.
      * right. left. reflexivity.
  - rewrite scan_two in Hin.
    assert (Hflag : forall w, remainingArgs w = remainingArgs v ->
                    In x (remainingArgs (scan l w)) ->
                    In x (remainingArgs v) \/ In x (a :: b :: l)).
    { intros w Hw Hx. destruct (IHl w x Hx) as [H | H].
      - left. rewrite <- Hw. exact H.
      - right. right. right. exact H. }
    destruct (String.eqb a "--policy-dir");
      [eapply Hflag; [| exact Hin]; reflexivity |].
    destruct (String.eqb a "--project-dir");
      [eapply Hflag; [| exact Hin]; reflexivity |].
    destruct (String.eqb a "--stack");
      [eapply Hflag; [| exact Hin]; reflexivity |].
    destruct (isCommand a).
    + right. right. exact Hin.
    + destruct (IHbl _ x Hin) as [H | H].
      * cbn in H. apply in_app_or in H. destruct H as [H | [<- | []]].
        -- left. exact H.
        -- right. left. reflexivity.
      * right. right. exact H.
Qed.

(** Every argument that the wrapper forwards is a token of its own command
    line: [remainingArgs] holds nothing that is not in [argv]. *)
Theorem X_forwarded_tokens_come_from_argv (h : Host) (cfg : Config) (x : string) :
  result (parseArgs h) = inl cfg ->
  In x (cfg_remainingArgs cfg) -> In x (argv h).
Proof.
  intros Hp Hin. destruct (parseArgs_inv h cfg Hp) as (_ & _ & Hr & _).
  rewrite Hr in Hin.
  destruct (scan_remaining_incl _ _ _ Hin) as [[] | H]. exact H.
Qed.

Lemma X_forwarded_tokens_come_from_argv_witness :
  In "--yes" (argv Demo.tokenBeforeCommand).
Proof.
  apply (X_forwarded_tokens_come_from_argv Demo.tokenBeforeCommand
           {| cfg_policyDir := "/opt/runner/pulumiPolicy";
              cfg_projectDir := "/opt/runner/pulumiTemplate";
              cfg_command := "up";
              cfg_remainingArgs := ["--yes"] |}).
  - reflexivity.
  - left. reflexivity.
Defined.

(** ** The directory checks *)

(** [directoryExists] does not throw: it makes one [fs.statSync] call and
    returns a boolean, [true] exactly when the path leads to a directory;
    a path that leads nowhere gives [false], not an exception. *)
Theorem X_directoryExists_never_throws (h : Host) (dir : string) :
  exists b,
    directoryExists h dir = ([StatSync dir], inl b)
    /\ (b = true <-> fs_entry h dir = Some Directory)
    /\ (fs_entry h dir = None -> b = false).
Proof.
  exists (isDir h dir). split; [apply directoryExists_eq |].
  split; [apply isDir_true |].
  intros Hnone. unfold isDir. rewrite Hnone. reflexivity.
Qed.

Lemma checkDirectories_policy_missing (h : Host) (cfg : Config) :
  fs_entry h (cfg_policyDir cfg) <> Some Directory ->
  checkDirectories h cfg
  = ([StatSync (cfg_policyDir cfg);
      logged ("Error: Policy pack directory not found: " ++ cfg_policyDir cfg)
             colors.red],
     inr (Exit (Some 1%Z))).
Proof.
  intros Hmiss. unfold checkDirectories. rewrite directoryExists_eq.
  assert (Hp : isDir h (cfg_policyDir cfg) = false).
  { destruct (isDir h (cfg_policyDir cfg)) eqn:E; [| reflexivity].
    apply isDir_true in E. contradiction. }
  rewrite Hp. reflexivity.
Qed.

(** When the policy directory is not a directory on disk, the run ends at
    the first check: after the banner, [main] stats the policy directory,
    logs the error line that names it and calls [process.exit(1)].  The
    project directory is not examined and nothing is spawned. *)
Theorem X_missing_policy_dir_stops_first (h : Host) (cfg : Config)
  (a1 a2 : string) :
  result (parseArgs h) = inl cfg ->
  path_resolve h (cfg_policyDir cfg) = Ok a1 ->
  path_resolve h (cfg_projectDir cfg) = Ok a2 ->
  fs_entry h (cfg_policyDir cfg) <> Some Directory ->
  outcome h = Exited (Some 1%Z)
  /\ trace (script h)
     = (trace (parseArgs h) ++ trace (banner h cfg)
        ++ [StatSync (cfg_policyDir cfg);
            logged ("Error: Policy pack directory not found: "
                    ++ cfg_policyDir cfg) colors.red])%list
  /\ noSpawn (trace (script h)).
Proof.
  intros Hp H1 H2 Hmiss.
  assert (Hmain : main h cfg
                  = ((trace (banner h cfg)
                      ++ [StatSync (cfg_policyDir cfg);
                          logged ("Error: Policy pack directory not found: "
                                  ++ cfg_policyDir cfg) colors.red])%list,
                     inr (Exit (Some 1%Z)))).
  { unfold main.
    pose proof (banner_returns h cfg a1 a2 H1 H2) as Hb.
    destruct (banner h cfg) as [tb rb]. cbn [result snd] in Hb. subst rb.
    rewrite bind_step, (checkDirectories_policy_missing h cfg Hmiss).
    reflexivity. }
  assert (Htr : trace (script h)
                = (trace (parseArgs h) ++ trace (banner h cfg)
                   ++ [StatSync (cfg_policyDir cfg);
                       logged ("Error: Policy pack directory not found: "
                               ++ cfg_policyDir cfg) colors.red])%list).
  { rewrite (script_trace h cfg Hp), Hmain. reflexivity. }
  split; [| split; [exact Htr |]].
  - unfold outcome. rewrite (script_result h cfg Hp), Hmain. reflexivity.
  - rewrite Htr.
    repeat apply noSpawn_app;
      solve [apply parseArgs_noSpawn | apply banner_noSpawn | reflexivity].
Qed.

Lemma X_missing_policy_dir_stops_first_witness :
  outcome Sample.nothingOnDisk = Exited (Some 1%Z)
  /\ filter isProbe (trace (script Sample.nothingOnDisk))
     = [ExistsSync "./pulumiPolicy"; StatSync "/opt/runner/pulumiPolicy"].
Proof.
  destruct (X_missing_policy_dir_stops_first Sample.nothingOnDisk
              (Sample.defaultConfig "up")
              "/opt/runner/pulumiPolicy" "/opt/runner/pulumiTemplate")
    as (Hout & Htr & _); try reflexivity; try discriminate.
  split; [exact Hout |]. rewrite Htr. reflexivity.
Defined.

(** ** What is spawned, and when *)

Lemma checkDirectories_fail (h : Host) (cfg : Config) :
  isDir h (cfg_policyDir cfg) && isDir h (cfg_projectDir cfg) = false ->
  result (checkDirectories h cfg) = inr (Exit (Some 1%Z))
  /\ noSpawn (trace (checkDirectories h cfg)).
Proof.
  intros Hf. unfold checkDirectories. rewrite !directoryExists_eq.
  destruct (isDir h (cfg_policyDir cfg)), (isDir h (cfg_projectDir cfg));
    try discriminate; split; reflexivity.
Qed.

Lemma handler_noSpawn (r : unit + Stop) :
  noSpawn match r with
          | inr (Raise msg) => trace (onUnhandled msg)
          | _ => []
          end.
Proof. destruct r as [| [|]]; reflexivity. Qed.

(** In every run, whatever the arguments, the environment and the file
    system are, the wrapper spawns at most one process.  When it spawns one,
    [parseArgs] has returned a configuration, both of its directories are
    directories on disk, and the process is [pulumi], run in the project
    directory with the command, the forwarded arguments and
    [--policy-pack <policyDir>]. *)
Theorem X_only_pulumi_is_spawned_after_both_checks (h : Host) :
  filter isSpawn (trace (script h)) = []
  \/ exists cfg,
       result (parseArgs h) = inl cfg
       /\ fs_entry h (cfg_policyDir cfg) = Some Directory
       /\ fs_entry h (cfg_projectDir cfg) = Some Directory
       /\ filter isSpawn (trace (script h)) = [invocation h cfg].
Proof.
  destruct (result (parseArgs h)) as [cfg | s] eqn:Hp.
  2: { left. unfold script. rewrite trace_bind, Hp, app_nil_r.
       apply parseArgs_noSpawn. }
  rewrite (script_trace h cfg Hp).
  rewrite (filter_spawn_app _ _ (parseArgs_noSpawn h)).
  rewrite trace_catch, filter_app, (handler_noSpawn (result (main h cfg))).
  rewrite app_nil_r. unfold main.
  rewrite trace_bind, (filter_spawn_app _ _ (banner_noSpawn h cfg)).
  destruct (result (banner h cfg)) as [[] | s] eqn:Hb; [| left; reflexivity].
  rewrite trace_bind.
  destruct (isDir h (cfg_policyDir cfg) && isDir h (cfg_projectDir cfg)) eqn:Hd.
  - apply andb_true_iff in Hd. destruct Hd as [D1 D2].
    apply isDir_true in D1, D2. right. exists cfg.
    repeat (split; [assumption || reflexivity |]).
    rewrite (checkDirectories_pass h cfg D1 D2). cbn [trace result fst snd].
    cbn [app filter isSpawn]. apply runPulumi_runs.
  - left. destruct (checkDirectories_fail h cfg Hd) as [Hr Ht].
    rewrite Hr, app_nil_r. exact Ht.
Qed.

(** ** A child without an exit code *)

(** When both directories exist and [spawnSync] reports the status [null]
    (the child was killed by a signal, or could not be started), [main] logs
    the failure line and calls [process.exit(null)]; the rejection handler
    does not run.  Node ends a process that called [process.exit(null)] with
    status 0. *)
Theorem X_null_status_exits_with_null (h : Host) (cfg : Config) (a1 a2 : string) :
  result (parseArgs h) = inl cfg ->
  path_resolve h (cfg_policyDir cfg) = Ok a1 ->
  path_resolve h (cfg_projectDir cfg) = Ok a2 ->
  fs_entry h (cfg_policyDir cfg) = Some Directory ->
  fs_entry h (cfg_projectDir cfg) = Some Directory ->
  pulumiStatus h cfg = Ok None ->
  outcome h = Exited None
  /\ exitStatus (outcome h) = 0%Z
  /\ In (logged (failureMessage (cfg_command cfg)) colors.red)
        (trace (script h))
  /\ filter isSpawn (trace (script h)) = [invocation h cfg].
Proof.
  intros Hp H1 H2 D1 D2 Hst.
  destruct (main_reaches_pulumi h cfg a1 a2 H1 H2 D1 D2) as [Hres Htr].
  destruct (runPulumi_runs h cfg) as [Hspawn Hend]. rewrite Hst in Hend.
  destruct Hend as [Hr Hlog].
  assert (Hout : outcome h = Exited None).
  { unfold outcome.
    rewrite (script_result h cfg Hp), result_catch, Hres, Hr. reflexivity. }
  assert (Htrace : trace (script h)
                   = (trace (parseArgs h) ++ trace (banner h cfg)
                      ++ [StatSync (cfg_policyDir cfg);
                          StatSync (cfg_projectDir cfg)]
                      ++ trace (runPulumi h cfg))%list).
  { rewrite (script_trace h cfg Hp), trace_catch, Hres, Hr, Htr, app_nil_r.
    reflexivity. }
  split; [exact Hout |]. split; [rewrite Hout; reflexivity |]. split.
  - rewrite Htrace. apply in_or_app. right. apply in_or_app. right.
    right. right. exact Hlog.
  - rewrite Htrace.
    rewrite (filter_spawn_app _ _ (parseArgs_noSpawn h)).
    rewrite (filter_spawn_app _ _ (banner_noSpawn h cfg)).
    exact Hspawn.
Qed.

Lemma X_null_status_exits_with_null_witness :
  outcome Demo.binaryMissing = Exited None
  /\ exitStatus (outcome Demo.binaryMissing) = 0%Z.
Proof.
  destruct (X_null_status_exits_with_null Demo.binaryMissing
              (Sample.defaultConfig "preview")
              "/opt/runner/pulumiPolicy" "/opt/runner/pulumiTemplate")
    as (Hout & Hst & _); try reflexivity.
  split; assumption.
Defined.

(** * buildPolicyPack *)

(** Without a [package.json] in the policy pack directory,
    [buildPolicyPack] logs a warning and returns 0 ("continue without
    building"): it runs no command, and does not even read
    [process.cwd()]. *)
Theorem X_build_without_package_json (h : Host) (process_cwd : Res string)
  (dir : string) :
  fs_entry h (path_join h dir "package.json") = None ->
  result (buildPolicyPack h process_cwd dir) = inl (Some 0%Z)
  /\ noSpawn (trace (buildPolicyPack h process_cwd dir))
  /\ In (logged ("Warning: No package.json found in " ++ dir) colors.yellow)
        (trace (buildPolicyPack h process_cwd dir)).
Proof.
  intros Hnone. unfold buildPolicyPack, existsSync. rewrite Hnone.
  split; [reflexivity |]. split; [reflexivity |].
  cbn. right. right. left. reflexivity.
Qed.

Lemma X_build_without_package_json_witness :
  result (buildPolicyPack Demo.childExits7 (Throw "ENOENT: uv_cwd")
            "/work/pulumiPolicy") = inl (Some 0%Z).
Proof.
  apply (X_build_without_package_json Demo.childExits7). reflexivity.
Defined.

(** When [pnpm install] does not exit with 0, [buildPolicyPack] returns the
    status of the install as it is ([null] included), logs the install
    error, and does not run the build: [pnpm install] is the only process
    spawned. *)
Theorem X_build_stops_at_failed_install (h : Host) (dir cwd : string)
  (k : FileType) (status : option Z) :
  fs_entry h (path_join h dir "package.json") = Some k ->
  child_status h "pnpm" ["install"] cwd = Ok status ->
  status <> Some 0%Z ->
  result (buildPolicyPack h (Ok cwd) dir) = inl status
  /\ filter isSpawn (trace (buildPolicyPack h (Ok cwd) dir)) = [pnpmInstall cwd]
  /\ In (logged "Error: Failed to install dependencies" colors.red)
        (trace (buildPolicyPack h (Ok cwd) dir)).
Proof.
  intros Hpkg Hinstall Hnz.
  unfold buildPolicyPack, existsSync, runCommand. rewrite Hpkg. cbn.
  rewrite Hinstall.
  destruct status as [[| p | p] |]; [congruence | | |]; cbn;
    (split; [reflexivity |]); (split; [reflexivity |]); auto 12.
Qed.

Lemma X_build_stops_at_failed_install_witness :
  result (buildPolicyPack Sample.installFails (Ok "/work") "/work/pulumiPolicy")
    = inl (Some 1%Z)
  /\ filter isSpawn
       (trace (buildPolicyPack Sample.installFails (Ok "/work")
                 "/work/pulumiPolicy"))
     = [pnpmInstall "/work"].
Proof.
  destruct (X_build_stops_at_failed_install Sample.installFails
              "/work/pulumiPolicy" "/work" OtherFile (Some 1%Z))
    as (Hr & Hs & _); try reflexivity; [discriminate |].
  split; assumption.
Defined.

(** When [package.json] exists and [pnpm install] exits with 0,
    [buildPolicyPack] runs the install and then the build of the package
    named after the directory, both in the working directory, and returns
    the status of the build; the success line is logged exactly when that
    status is 0. *)
Theorem X_build_returns_build_status (h : Host) (dir cwd : string)
  (k : FileType) (status : option Z) :
  fs_entry h (path_join h dir "package.json") = Some k ->
  child_status h "pnpm" ["install"] cwd = Ok (Some 0%Z) ->
  child_status h "pnpm" ["--filter"; path_basename h dir; "run"; "build"] cwd
    = Ok status ->
  result (buildPolicyPack h (Ok cwd) dir) = inl status
  /\ filter isSpawn (trace (buildPolicyPack h (Ok cwd) dir))
     = [pnpmInstall cwd; pnpmBuild h dir cwd]
  /\ (In (logged "✅ Policy pack built successfully" colors.green)
         (trace (buildPolicyPack h (Ok cwd) dir))
      <-> status = Some 0%Z).
Proof.
  intros Hpkg Hinstall Hbuild.
  unfold buildPolicyPack, existsSync, runCommand, pnpmBuild.
  rewrite Hpkg. cbn. rewrite Hinstall. cbn. rewrite Hbuild.
  destruct status as [[| p | p] |]; cbn;
    (split; [reflexivity |]); (split; [reflexivity |]);
    split; intros H; try discriminate; try (auto 20; fail);
    repeat (destruct H as [H | H]; [discriminate H |]); destruct H.
Qed.

Lemma X_build_returns_build_status_witness :
  result (buildPolicyPack Sample.buildSucceeds (Ok "/work") "/work/pulumiPolicy")
    = inl (Some 0%Z)
  /\ filter isSpawn
       (trace (buildPolicyPack Sample.buildSucceeds (Ok "/work")
                 "/work/pulumiPolicy"))
     = [pnpmInstall "/work";
        SpawnSync "pnpm" ["--filter"; "pulumiPolicy"; "run"; "build"] "/work"].
Proof.
  destruct (X_build_returns_build_status Sample.buildSucceeds
              "/work/pulumiPolicy" "/work" OtherFile (Some 0%Z))
    as (Hr & Hs & _); try reflexivity.
  split; assumption.
Defined.

(** * The organization's policies *)

(** The S3 policy reports nothing exactly when the bucket has a
    [versioning] block whose [enabled] is [true]; in every other case
    (no block, [enabled] absent or [false]) it reports its one message,
    once. *)
Theorem X_s3_versioning_policy (bucket : PolicyPack.Bucket) :
  (PolicyPack.requireS3BucketVersioning bucket = []
   <-> exists v,
         PolicyPack.versioning bucket = Some v
         /\ PolicyPack.enabled v = Some true)
  /\ (PolicyPack.requireS3BucketVersioning bucket = []
      \/ PolicyPack.requireS3BucketVersioning bucket
         = [PolicyPack.versioningMessage]).
Proof.
  unfold PolicyPack.requireS3BucketVersioning.
  destruct bucket as [[[[[|] |]] |]]; cbn; split;
    try (left; reflexivity); try (right; reflexivity); split;
    try discriminate; try (intros _; eexists; split; reflexivity);
    intros (v & Hv & He); try discriminate;
    injection Hv as <-; discriminate.
Qed.

Lemma tagged_iff (instance : PolicyPack.Ec2Instance) (tag : string) :
  PolicyPack.truthyString (PolicyPack.tagOf instance tag) = true
  <-> exists value,
        PolicyPack.tagOf instance tag = Some value /\ value <> "".
Proof.
  unfold PolicyPack.truthyString, truthy.
  destruct (PolicyPack.tagOf instance tag) as [value |]; split.
  - intros H. exists value. split; [reflexivity |].
    apply negb_true_iff in H. now apply String.eqb_neq.
  - intros (x & Hx & Hne). injection Hx as <-.
    apply negb_true_iff. now apply String.eqb_neq.
  - discriminate.
  - intros (x & Hx & _). discriminate.
Qed.

(** The EC2 policy reports nothing exactly when the instance type is
    [t2.micro] and each of the tags [Owner], [Environment] and [CostCenter]
    is present with a non-empty value.  (The type check is
    [instanceType !== "t2.micro"]: every other type, and an absent type, is
    reported.) *)
Theorem X_ec2_policy_passes_iff (instance : PolicyPack.Ec2Instance) :
  PolicyPack.requireEC2InstanceTags instance = []
  <-> PolicyPack.instanceType instance = Some "t2.micro"
      /\ forall tag, In tag PolicyPack.requiredTags ->
           exists value,
             PolicyPack.tagOf instance tag = Some value /\ value <> "".
Proof.
  assert (Hshape :
    PolicyPack.requireEC2InstanceTags instance
    = ((if PolicyPack.notT2Micro (PolicyPack.instanceType instance)
        then [PolicyPack.instanceTypeMessage] else [])
       ++ flat_map
            (fun tag =>
               if negb (PolicyPack.truthyString (PolicyPack.tagOf instance tag))
               then [PolicyPack.tagMessage tag] else [])
            PolicyPack.requiredTags)%list).
  { unfold PolicyPack.requireEC2InstanceTags, PolicyPack.tagOf.
    destruct (PolicyPack.tags instance); reflexivity. }
  rewrite Hshape. split.
  - intros Hnil. apply app_eq_nil in Hnil. destruct Hnil as [Htype Htags].
    split.
    + destruct (PolicyPack.instanceType instance) as [t |]; cbn in Htype;
        [| discriminate].
      destruct (String.eqb t "t2.micro") eqn:E; [| discriminate].
      apply String.eqb_eq in E. now subst.
    + intros tag Hin. apply tagged_iff.
      destruct (PolicyPack.truthyString (PolicyPack.tagOf instance tag)) eqn:E;
        [reflexivity |].
      exfalso.
      assert (Hmsg : In (PolicyPack.tagMessage tag) (@nil string)).
      { rewrite <- Htags. apply in_flat_map. exists tag.
        split; [exact Hin |]. rewrite E. left. reflexivity. }
      destruct Hmsg.
  - intros [Htype Htags]. rewrite Htype. cbn [PolicyPack.notT2Micro].
    cbn [String.eqb Ascii.eqb Bool.eqb negb app].
    unfold PolicyPack.requiredTags. cbn [flat_map].
    assert (Ht : forall tag, In tag PolicyPack.requiredTags ->
                 PolicyPack.truthyString (PolicyPack.tagOf instance tag) = true).
    { intros tag Hin. apply tagged_iff. apply Htags. exact Hin. }
    rewrite (Ht "Owner"), (Ht "Environment"), (Ht "CostCenter");
      [reflexivity | | |]; cbn; auto.
Qed.

(** For each of the three required tags, the EC2 policy reports the message
    that names the tag exactly when the tag is absent or empty, and reports
    it once. *)
Theorem X_ec2_missing_tag_is_reported (instance : PolicyPack.Ec2Instance)
  (tag : string) :
  In tag PolicyPack.requiredTags ->
  (In (PolicyPack.tagMessage tag) (PolicyPack.requireEC2InstanceTags instance)
   <-> PolicyPack.truthyString (PolicyPack.tagOf instance tag) = false)
  /\ count_occ string_dec (PolicyPack.requireEC2InstanceTags instance)
       (PolicyPack.tagMessage tag) <= 1.
Proof.
  intros Hin.
  assert (Hshape :
    PolicyPack.requireEC2InstanceTags instance
    = ((if PolicyPack.notT2Micro (PolicyPack.instanceType instance)
        then [PolicyPack.instanceTypeMessage] else [])
       ++ flat_map
            (fun tag =>
               if negb (PolicyPack.truthyString (PolicyPack.tagOf instance tag))
               then [PolicyPack.tagMessage tag] else [])
            PolicyPack.requiredTags)%list).
  { unfold PolicyPack.requireEC2InstanceTags, PolicyPack.tagOf.
    destruct (PolicyPack.tags instance); reflexivity. }
  rewrite Hshape. unfold PolicyPack.requiredTags in *. cbn [flat_map].
  destruct (PolicyPack.notT2Micro (PolicyPack.instanceType instance));
    destruct (PolicyPack.truthyString (PolicyPack.tagOf instance "Owner")) eqn:E1;
    destruct (PolicyPack.truthyString (PolicyPack.tagOf instance "Environment")) eqn:E2;
    destruct (PolicyPack.truthyString (PolicyPack.tagOf instance "CostCenter")) eqn:E3;
    cbn in Hin; destruct Hin as [<- | [<- | [<- | []]]];
    rewrite ?E1, ?E2, ?E3; (split; [| vm_compute; lia]);
    cbn; split; intros H; try reflexivity; try discriminate; auto 6;
    repeat (destruct H as [H | H]; [discriminate H |]); destruct H.
Qed.

Lemma X_ec2_missing_tag_is_reported_witness :
  In (PolicyPack.tagMessage "CostCenter")
     (PolicyPack.requireEC2InstanceTags Sample.untaggedInstance)
  /\ In (PolicyPack.tagMessage "Environment")
        (PolicyPack.requireEC2InstanceTags Sample.untaggedInstance)
  /\ ~ In (PolicyPack.tagMessage "Owner")
          (PolicyPack.requireEC2InstanceTags Sample.untaggedInstance).
Proof.
  split; [| split].
  - apply (X_ec2_missing_tag_is_reported Sample.untaggedInstance "CostCenter");
      [cbn; auto | reflexivity].
  - apply (X_ec2_missing_tag_is_reported Sample.untaggedInstance "Environment");
      [cbn; auto | reflexivity].
  - intros H.
    apply (X_ec2_missing_tag_is_reported Sample.untaggedInstance "Owner") in H;
      [discriminate H | cbn; auto].
Defined.

(** The RDS policy reports nothing exactly when [storageEncrypted] is
    [true] and the engine version is not the string [8.0]; when both checks
    fail it reports the encryption message first. *)
Theorem X_rds_policy (instance : PolicyPack.RdsInstance) :
  (PolicyPack.requireRDSEncryption instance = []
   <-> PolicyPack.storageEncrypted instance = Some true
       /\ PolicyPack.engineVersion instance <> Some "8.0")
  /\ (PolicyPack.storageEncrypted instance <> Some true ->
      PolicyPack.engineVersion instance = Some "8.0" ->
      PolicyPack.requireRDSEncryption instance
      = [PolicyPack.encryptionMessage; PolicyPack.engineVersionMessage]).
Proof.
  unfold PolicyPack.requireRDSEncryption.
  destruct instance as [enc ver]. cbn [PolicyPack.storageEncrypted
                                        PolicyPack.engineVersion].
  assert (Hv : PolicyPack.isVersion80 ver = true <-> ver = Some "8.0").
  { destruct ver as [x |]; cbn; [| split; discriminate].
    rewrite String.eqb_eq. split; congruence. }
  split.
  - split.
    + intros Hnil. apply app_eq_nil in Hnil. destruct Hnil as [H1 H2]. split.
      * destruct enc as [[|] |]; cbn in H1; try discriminate. reflexivity.
      * intros Hver. apply Hv in Hver. rewrite Hver in H2. discriminate.
    + intros [Henc Hver]. rewrite Henc. cbn.
      destruct (PolicyPack.isVersion80 ver) eqn:E; [| reflexivity].
      exfalso. apply Hver. apply Hv. reflexivity.
  - intros Henc Hver. apply Hv in Hver. rewrite Hver.
    destruct enc as [[|] |]; [congruence | reflexivity | reflexivity].
Qed.

Lemma X_rds_policy_witness :
  PolicyPack.requireRDSEncryption Sample.encryptedDatabase = []
  /\ PolicyPack.requireRDSEncryption
       {| PolicyPack.storageEncrypted := None;
          PolicyPack.engineVersion := Some "8.0" |}
     = [PolicyPack.encryptionMessage; PolicyPack.engineVersionMessage].
Proof.
  split.
  - apply (X_rds_policy Sample.encryptedDatabase). split;
      [reflexivity | discriminate].
  - apply (X_rds_policy {| PolicyPack.storageEncrypted := None;
                           PolicyPack.engineVersion := Some "8.0" |});
      [discriminate | reflexivity].
Defined.

Lemma X_ec2_policy_passes_iff_witness :
  PolicyPack.requireEC2InstanceTags Sample.taggedInstance = [].
Proof.
  apply (X_ec2_policy_passes_iff Sample.taggedInstance).
  split; [reflexivity |].
  intros tag [<- | [<- | [<- | []]]]; eexists; (split; [reflexivity |]);
    discriminate.
Defined.

Lemma X_s3_versioning_policy_witness :
  PolicyPack.requireS3BucketVersioning Sample.versionedBucket = [].
Proof.
  apply (X_s3_versioning_policy Sample.versionedBucket).
  eexists. split; reflexivity.
Defined.
